(** * backend-wms: envelope helper and maintainer controller

    A shallow embedding of [ManejadorRespuestas] (the response envelope
    helper) and of [ControladorMantenedores] (the read-only master-data
    handlers), with the properties of their specification.

    Layout: the JavaScript values and string primitives the code relies on,
    the Express response object, the envelope helper, the ORM client with the
    data store behind it, the twelve handlers; then the theorems. *)

From Stdlib Require Import ZArith NArith List Bool Lia.
From Stdlib Require Import Strings.String Strings.Ascii.
Import ListNotations.

Set Warnings "-register-all".

Open Scope string_scope.
Open Scope Z_scope.

(* ------------------------------------------------------------------ *)
(** ** JavaScript values *)
(* ------------------------------------------------------------------ *)

Module JS.

(** Values that flow through the handlers.  A number is held by its
    mathematical integer value (the code only meets database keys, counts and
    HTTP statuses); a string is held by its UTF-8 bytes; an object is the list
    of its properties in insertion order. *)
Inductive valor : Type :=
| VUndefined
| VNull
| VBool (b : bool)
| VNum (n : Z)
| VStr (s : string)
| VArr (xs : list valor)
| VObj (ps : list (string * valor)).

Definition objeto := list (string * valor).

(** [o.k]: the value of the first property named [k], [undefined] when the
    object has none. *)
Fixpoint prop (k : string) (o : objeto) : valor :=
  match o with
  | [] => VUndefined
  | (k', v) :: r => if String.eqb k k' then v else prop k r
  end.

Fixpoint tiene_clave (k : string) (o : objeto) : bool :=
  match o with
  | [] => false
  | (k', _) :: r => String.eqb k k' || tiene_clave k r
  end.

(** [a === b] on the primitive values; two object or array values met by the
    code are never the same reference, so they compare unequal. *)
Definition igual_estricto (a b : valor) : bool :=
  match a, b with
  | VUndefined, VUndefined => true
  | VNull, VNull => true
  | VBool x, VBool y => Bool.eqb x y
  | VNum x, VNum y => Z.eqb x y
  | VStr x, VStr y => String.eqb x y
  | _, _ => false
  end.

(** The default of a destructuring pattern [{ k = d }]: it applies to
    [undefined] only. *)
Definition por_defecto (v d : valor) : valor :=
  match v with
  | VUndefined => d
  | _ => v
  end.

Definition isArray (v : valor) : bool :=
  match v with
  | VArr _ => true
  | _ => false
  end.

(** What [JSON.stringify] keeps of a value: a property whose value is
    [undefined] is left out of its object, an [undefined] array element is
    written as [null]. *)
Fixpoint serializar (v : valor) : valor :=
  match v with
  | VArr xs =>
      VArr (map (fun x => match x with
                          | VUndefined => VNull
                          | _ => serializar x
                          end) xs)
  | VObj ps =>
      VObj ((fix campos (ps : list (string * valor)) : list (string * valor) :=
               match ps with
               | [] => []
               | (k, x) :: r =>
                   match x with
                   | VUndefined => campos r
                   | _ => (k, serializar x) :: campos r
                   end
               end) ps)
  | _ => v
  end.

(** *** Decimal rendering of a number *)

Definition digito (d : N) : ascii := ascii_of_N (48 + d).

Fixpoint decimal_aux (pasos : nat) (n : N) (acc : string) : string :=
  match pasos with
  | O => acc
  | S p =>
      let acc' := String (digito (n mod 10)) acc in
      if (n / 10 =? 0)%N then acc' else decimal_aux p (n / 10) acc'
  end.

(** The decimal numeral of [n], without leading zeros ([0] gives "0"). *)
Definition decimal (n : N) : string :=
  decimal_aux (S (N.to_nat (N.log2 n))) n "".

(** [Number.prototype.toString()] on an integer. *)
Definition numero_a_cadena (z : Z) : string :=
  if z <? 0 then String "-" (decimal (Z.to_N (- z))) else decimal (Z.to_N z).

(** Errors a handler can meet: a rejected query (tagged by the query's
    position in the trace) or a [TypeError] of the runtime. *)
Inductive excepcion : Type :=
| ErrorConsulta (n : nat)
| TypeError (msg : string).

Inductive resultado (A : Type) : Type :=
| Ok (a : A)
| Lanza (e : excepcion).
Arguments Ok {A} a.
Arguments Lanza {A} e.

(** [String(v)], the conversion a template literal applies. *)
Fixpoint ToString (v : valor) : string :=
  match v with
  | VUndefined => "undefined"
  | VNull => "null"
  | VBool true => "true"
  | VBool false => "false"
  | VNum z => numero_a_cadena z
  | VStr s => s
  | VArr xs =>
      String.concat ","
        (map (fun x => match x with
                       | VUndefined | VNull => ""
                       | _ => ToString x
                       end) xs)
  | VObj _ => "[object Object]"
  end.

(** [v.toString()]: a method call, so it throws on [null] and [undefined]. *)
Definition toString (v : valor) : resultado string :=
  match v with
  | VUndefined => Lanza (TypeError "Cannot read properties of undefined (reading 'toString')")
  | VNull => Lanza (TypeError "Cannot read properties of null (reading 'toString')")
  | _ => Ok (ToString v)
  end.

(** *** String primitives *)

(** [s.length]: the number of UTF-16 code units of the string whose UTF-8
    bytes are [s]: a continuation byte counts for nothing, the lead byte of a
    four-byte sequence for two (a surrogate pair). *)
Definition unidades (a : ascii) : nat :=
  let n := N_of_ascii a in
  if ((128 <=? n) && (n <? 192))%N then 0%nat
  else if (240 <=? n)%N then 2%nat
  else 1%nat.

Fixpoint longitud (s : string) : nat :=
  match s with
  | EmptyString => 0%nat
  | String a r => (unidades a + longitud r)%nat
  end.

Fixpoint repetir (a : ascii) (n : nat) : string :=
  match n with
  | O => EmptyString
  | S m => String a (repetir a m)
  end.

(** [s.padStart(objetivo, relleno)] for a one-character ASCII filler. *)
Definition padStart (s : string) (objetivo : nat) (relleno : ascii) : string :=
  repetir relleno (objetivo - longitud s) ++ s.

Definition startsWith (s pre : string) : bool := String.prefix pre s.

Fixpoint quitar (n : nat) (s : string) : string :=
  match n, s with
  | O, _ => s
  | S m, EmptyString => EmptyString
  | S m, String _ r => quitar m r
  end.

(** [s.replace(pat, rep)] with a string pattern: the first occurrence only
    ([rep] holds no [$] pattern in the code). *)
Fixpoint replace (pat rep s : string) : string :=
  if String.prefix pat s then rep ++ quitar (String.length pat) s
  else match s with
       | EmptyString => EmptyString
       | String a r => String a (replace pat rep r)
       end.

(** [s.replace(/c/g, d)] for ASCII characters [c] and [d]. *)
Fixpoint replace_todos (c d : ascii) (s : string) : string :=
  match s with
  | EmptyString => EmptyString
  | String a r => String (if Ascii.eqb a c then d else a) (replace_todos c d r)
  end.

(** *** parseInt *)

(** Leading white space and line terminators ([StrWhiteSpaceChar]) as UTF-8:
    TAB LF VT FF CR SP, U+00A0, U+1680, U+2000..U+200A, U+2028, U+2029,
    U+202F, U+205F, U+3000, U+FEFF. *)
Fixpoint trimStart (s : string) : string :=
  match s with
  | String a r =>
      let n := N_of_ascii a in
      if ((9 <=? n) && (n <=? 13) || (n =? 32))%N then trimStart r
      else
        match r with
        | String b r2 =>
            let m := N_of_ascii b in
            if ((n =? 194) && (m =? 160))%N then trimStart r2
            else
              match r2 with
              | String c r3 =>
                  let k := N_of_ascii c in
                  if ((n =? 225) && (m =? 154) && (k =? 128)
                      || (n =? 226) && (m =? 128)
                         && ((128 <=? k) && (k <=? 138) || (k =? 168)
                             || (k =? 169) || (k =? 175))
                      || (n =? 226) && (m =? 129) && (k =? 159)
                      || (n =? 227) && (m =? 128) && (k =? 128)
                      || (n =? 239) && (m =? 187) && (k =? 191))%N
                  then trimStart r3
                  else s
              | EmptyString => s
              end
        | EmptyString => s
        end
  | EmptyString => s
  end.

(** The value of [a] as a digit of radix [R] (10 or 16). *)
Definition valor_digito (R : N) (a : ascii) : option N :=
  let n := N_of_ascii a in
  if ((48 <=? n) && (n <=? 57))%N then Some (n - 48)%N
  else if (R =? 16)%N then
    if ((97 <=? n) && (n <=? 102))%N then Some (n - 87)%N
    else if ((65 <=? n) && (n <=? 70))%N then Some (n - 55)%N
    else None
  else None.

(** The value of the longest prefix of radix-[R] digits; [acc] is [None]
    until a digit has been read. *)
Fixpoint leer_digitos (R : N) (s : string) (acc : option N) : option N :=
  match s with
  | EmptyString => acc
  | String a r =>
      match valor_digito R a with
      | Some d =>
          leer_digitos R r
            (Some (match acc with
                   | Some x => x * R + d
                   | None => d
                   end)%N)
      | None => acc
      end
  end.

(** What [parseInt] returns: [NaN], a finite number held by its integer
    value, or an infinity with its sign. *)
Inductive numero : Type :=
| NaN
| Num (z : Z)
| Infinity (negativo : bool).

(** The double nearest to the integer [n]: [n] itself below [2^53]; above,
    [n] rounded to 53 significant bits, a tie going to the even
    significand; [None], which stands for [Infinity], when that reaches
    [2^1024]. *)
Definition redondear (n : N) : option N :=
  if (n <? 2 ^ 53)%N then Some n
  else
    let e := (N.log2 n - 52)%N in
    let q := (n / 2 ^ e)%N in
    let r := (n mod 2 ^ e)%N in
    let mitad := (2 ^ (e - 1))%N in
    let q' := if ((mitad <? r) || (r =? mitad) && N.odd q)%N
              then (q + 1)%N else q in
    let v := (q' * 2 ^ e)%N in
    if (v <? 2 ^ 1024)%N then Some v else None.

(** [parseInt(s)] without a radix: leading white space is dropped; a
    leading [-] gives the sign; a leading [-] or [+] is dropped; a leading
    [0x] or [0X] is dropped and switches to radix 16; the value is that of
    the longest run of digits that follows, [NaN] when that run is empty.
    Whatever follows the digits is ignored.  The result is a double: the
    integer the digits denote, rounded (as V8 does, to the nearest
    double), or an infinity. *)
Definition parseInt (s : string) : numero :=
  let s1 := trimStart s in
  let signo :=
    match s1 with
    | String a _ => if Ascii.eqb a "-" then -1 else 1
    | EmptyString => 1
    end in
  let s2 :=
    match s1 with
    | String a r => if Ascii.eqb a "-" || Ascii.eqb a "+" then r else s1
    | EmptyString => s1
    end in
  let hex :=
    match s2 with
    | String a (String b _) =>
        Ascii.eqb a "0" && (Ascii.eqb b "x" || Ascii.eqb b "X")
    | _ => false
    end in
  let R := if hex then 16%N else 10%N in
  let s3 := if hex then quitar 2 s2 else s2 in
  match leer_digitos R s3 None with
  | None => NaN
  | Some n =>
      match redondear n with
      | Some m => Num (signo * Z.of_N m)
      | None => Infinity (signo <? 0)
      end
  end.

End JS.
Export JS.

(* ------------------------------------------------------------------ *)
(** ** The Express request and response objects *)
(* ------------------------------------------------------------------ *)

Module Express.

(** A request: the route parameters (always strings when present) and the
    parsed query string. *)
Record Req : Type := mkReq {
  params : list (string * string);
  query : objeto
}.

(** [req.params.k], [None] standing for [undefined]. *)
Fixpoint param (k : string) (ps : list (string * string)) : option string :=
  match ps with
  | [] => None
  | (k', v) :: r => if String.eqb k k' then Some v else param k r
  end.

(** The truthiness test [if (!x)] on a route parameter: [undefined] and the
    empty string are falsy. *)
Definition presente (x : option string) : option string :=
  match x with
  | Some EmptyString => None
  | _ => x
  end.

Definition param_valor (x : option string) : valor :=
  match x with
  | Some s => VStr s
  | None => VUndefined
  end.

(** One response written on the wire: the status and the object handed to
    [res.json]; the bytes sent are [JSON.stringify] of it, see
    [serializar]. *)
Record Respuesta : Type := mkRespuesta {
  codigoHTTP : Z;
  cuerpo : valor
}.

(** The response object: the status set so far and what has been sent. *)
Record Res : Type := mkRes {
  statusCode : Z;
  enviadas : list Respuesta
}.

Definition res_nueva : Res := mkRes 200 [].

Definition status (c : Z) (res : Res) : Res :=
  mkRes c (enviadas res).

Definition json (body : valor) (res : Res) : Res :=
  mkRes (statusCode res) (enviadas res ++ [mkRespuesta (statusCode res) body]).

End Express.
Export Express.

(* ------------------------------------------------------------------ *)
(** ** ManejadorRespuestas *)
(* ------------------------------------------------------------------ *)

Module ManejadorRespuestas.

(** A parameter with a default value is an [option]: [None] is the omitted
    (or [undefined]) argument. *)
Definition o_defecto {A : Type} (x : option A) (d : A) : A :=
  match x with
  | Some a => a
  | None => d
  end.

Definition exito (res : Res) (datos : valor)
    (mensaje : option string) (codigoEstado : option Z) : Res :=
  let mensaje := o_defecto mensaje "Operación exitosa" in
  let codigoEstado := o_defecto codigoEstado 200 in
  json (VObj [("exito", VBool true);
              ("mensaje", VStr mensaje);
              ("datos", datos);
              ("total", match datos with
                        | VArr xs => VNum (Z.of_nat (List.length xs))
                        | _ => VUndefined
                        end)])
       (status codigoEstado res).

Definition error (res : Res) (mensaje : valor)
    (codigo : option string) (codigoEstado : option Z) : Res :=
  let codigo := o_defecto codigo "ERROR_GENERICO" in
  let codigoEstado := o_defecto codigoEstado 500 in
  json (VObj [("exito", VBool false);
              ("mensaje", mensaje);
              ("codigo", VStr codigo)])
       (status codigoEstado res).

Definition validacionFallida (res : Res) (errores : valor)
    (mensaje : option string) : Res :=
  let mensaje := o_defecto mensaje "Datos de entrada inválidos" in
  json (VObj [("exito", VBool false);
              ("mensaje", VStr mensaje);
              ("codigo", VStr "VALIDACION_FALLIDA");
              ("errores", errores)])
       (status 400 res).

Definition noEncontrado (res : Res) (mensaje : option string) : Res :=
  let mensaje := o_defecto mensaje "Recurso no encontrado" in
  json (VObj [("exito", VBool false);
              ("mensaje", VStr mensaje);
              ("codigo", VStr "RECURSO_NO_ENCONTRADO")])
       (status 404 res).

End ManejadorRespuestas.

(* ------------------------------------------------------------------ *)
(** ** The ORM client and the data store *)
(* ------------------------------------------------------------------ *)

Module Prisma.

Inductive modelo : Type :=
| materiales
| proveedores
| ubicacion
| temporadas_app
| tipo_movimientos_app.

Definition modelo_eqb (a b : modelo) : bool :=
  match a, b with
  | materiales, materiales
  | proveedores, proveedores
  | ubicacion, ubicacion
  | temporadas_app, temporadas_app
  | tipo_movimientos_app, tipo_movimientos_app => true
  | _, _ => false
  end.

(** One condition of a [where] object: [{ campo: v }], [{ campo: Infinity }]
    (or [-Infinity]), or [{ campo: { contains: s, mode: 'insensitive' } }]. *)
Inductive filtro : Type :=
| igual (v : valor)
| igual_infinito (negativo : bool)
| contains_insensitive (s : string).

Inductive direccion : Type :=
| asc
| desc.

(** The operations of the client.  The controller calls the first three;
    the writing ones are part of the client all the same. *)
Inductive operacion : Type :=
| findMany
| findFirst
| count
| create (data : objeto)
| updateMany (data : objeto)
| deleteMany.

Definition solo_lectura (o : operacion) : bool :=
  match o with
  | findMany | findFirst | count => true
  | _ => false
  end.

Record consulta : Type := mkConsulta {
  sobre : modelo;
  op : operacion;
  where_ : list (string * filtro);
  select_ : option (list string);
  orderBy : list (string * direccion)
}.

Definition fila := objeto.

(** What the code takes from the platform it runs on and does not define:
    the runtime's Unicode case mappings and the database's collation (its
    case-insensitive substring test and its sort). *)
Record Plataforma : Type := mkPlataforma {
  toUpperCase : string -> string;
  toLowerCase : string -> string;
  contiene_insensible : string -> string -> bool;
  ordenar : list (string * direccion) -> list fila -> list fila
}.

Definition tablas_t := modelo -> list fila.

Section Almacen.

Variable P : Plataforma.

(** A row satisfies a [where] object when it satisfies each condition; a
    condition whose value is [undefined] is no condition, and no stored
    value equals an infinity (a query the client refuses to run is a
    rejected query, see [falla]). *)
Definition cumple_filtro (f : fila) (c : string * filtro) : bool :=
  match snd c with
  | igual VUndefined => true
  | igual v => igual_estricto (prop (fst c) f) v
  | igual_infinito _ => false
  | contains_insensitive s =>
      match prop (fst c) f with
      | VStr t => contiene_insensible P t s
      | _ => false
      end
  end.

Definition cumple (w : list (string * filtro)) (f : fila) : bool :=
  forallb (cumple_filtro f) w.

Definition proyectar (sel : option (list string)) (f : fila) : fila :=
  match sel with
  | None => f
  | Some ks => filter (fun kv => existsb (String.eqb (fst kv)) ks) f
  end.

(** The rows a reading query sees, in the order it sees them: the table's own
    order unless the query asks for one. *)
Definition filas_de (t : tablas_t) (c : consulta) : list fila :=
  let fs := filter (cumple (where_ c)) (t (sobre c)) in
  let fs := match orderBy c with
            | [] => fs
            | o => ordenar P o fs
            end in
  map (proyectar (select_ c)) fs.

Definition poner (t : tablas_t) (m : modelo) (fs : list fila) : tablas_t :=
  fun m' => if modelo_eqb m m' then fs else t m'.

Definition asignar (data : objeto) (f : fila) : fila :=
  map (fun kv => if tiene_clave (fst kv) data
                 then (fst kv, prop (fst kv) data) else kv) f.

(** What an operation does to the tables. *)
Definition efecto (c : consulta) (t : tablas_t) : tablas_t :=
  match op c with
  | findMany | findFirst | count => t
  | create data => poner t (sobre c) (t (sobre c) ++ [data])
  | updateMany data =>
      poner t (sobre c)
        (map (fun f => if cumple (where_ c) f then asignar data f else f)
             (t (sobre c)))
  | deleteMany =>
      poner t (sobre c)
        (filter (fun f => negb (cumple (where_ c) f)) (t (sobre c)))
  end.

End Almacen.

End Prisma.
Export Prisma.

(* ------------------------------------------------------------------ *)
(** ** The world a handler runs in *)
(* ------------------------------------------------------------------ *)

Module Efectos.

(** The tables of the data store, which queries are rejected (by their
    position among the queries issued and their content), the queries issued
    so far, the lines written by [console.error], and the response object. *)
Record Mundo : Type := mkMundo {
  tablas : tablas_t;
  falla : nat -> consulta -> bool;
  traza : list consulta;
  consola : list (string * excepcion);
  res : Res
}.

(** A computation: it transforms the world and returns or throws. *)
Definition M (A : Type) : Type := Mundo -> Mundo * resultado A.

Definition ret {A : Type} (a : A) : M A := fun w => (w, Ok a).

Definition bind {A B : Type} (m : M A) (k : A -> M B) : M B :=
  fun w =>
    match m w with
    | (w', Ok a) => k a w'
    | (w', Lanza e) => (w', Lanza e)
    end.

Definition lanzar {A : Type} (e : excepcion) : M A := fun w => (w, Lanza e).

Definition elevar {A : Type} (r : resultado A) : M A := fun w => (w, r).

(** [try { cuerpo } catch (error) { manejador }] *)
Definition intentar {A : Type} (body : M A) (manejador : excepcion -> M A) : M A :=
  fun w =>
    match body w with
    | (w', Lanza e) => manejador e w'
    | r => r
    end.

Definition console_error (msg : string) (e : excepcion) : M unit :=
  fun w =>
    (mkMundo (tablas w) (falla w) (traza w) (consola w ++ [(msg, e)]) (res w),
     Ok tt).

(** A call of the envelope helper on the handler's [res]. *)
Definition responder (f : Res -> Res) : M unit :=
  fun w =>
    (mkMundo (tablas w) (falla w) (traza w) (consola w) (f (res w)), Ok tt).

(** [await] of one query: it is recorded, then rejected or carried out. *)
Definition emitir (P : Plataforma) (c : consulta) : M unit :=
  fun w =>
    let n := List.length (traza w) in
    if falla w n c
    then (mkMundo (tablas w) (falla w) (traza w ++ [c]) (consola w) (res w),
          Lanza (ErrorConsulta n))
    else (mkMundo (efecto P c (tablas w)) (falla w) (traza w ++ [c])
                  (consola w) (res w),
          Ok tt).

Definition leer {A : Type} (f : tablas_t -> A) : M A :=
  fun w => (w, Ok (f (tablas w))).

(** [p.then(...)] observed without throwing: the outcome as a value. *)
Definition asentar {A : Type} (p : M A) : M (resultado A) :=
  fun w => let '(w', r) := p w in (w', Ok r).

(** [await Promise.all([a, b, c, d, e])]: the five are all started, in the
    order of the array; the whole is rejected when one of them is.  Which
    rejection wins is a matter of timing; the first of the array is taken. *)
Definition Promise_all5 {A B C D E : Type}
    (pa : M A) (pb : M B) (pc : M C) (pd : M D) (pe : M E)
    : M (A * B * C * D * E) :=
  bind (asentar pa) (fun ra =>
  bind (asentar pb) (fun rb =>
  bind (asentar pc) (fun rc =>
  bind (asentar pd) (fun rd =>
  bind (asentar pe) (fun re =>
    match ra, rb, rc, rd, re with
    | Ok a, Ok b, Ok c, Ok d, Ok e => ret (a, b, c, d, e)
    | Lanza x, _, _, _, _ => lanzar x
    | _, Lanza x, _, _, _ => lanzar x
    | _, _, Lanza x, _, _ => lanzar x
    | _, _, _, Lanza x, _ => lanzar x
    | _, _, _, _, Lanza x => lanzar x
    end))))).

End Efectos.
Export Efectos.

Declare Scope m_scope.
Delimit Scope m_scope with m.
Notation "x <- m ;; k" := (bind m (fun x => k))
  (at level 61, m at next level, right associativity) : m_scope.
Notation "m ;;; k" := (bind m (fun _ => k))
  (at level 61, right associativity) : m_scope.

(** The three reading methods of the client, as the controller calls them. *)
Module Cliente.

Section Cliente.

Variable P : Plataforma.

Definition findMany_ (m : modelo) (w : list (string * filtro))
    (s : option (list string)) (o : list (string * direccion))
    : M (list fila) :=
  let c := mkConsulta m findMany w s o in
  (emitir P c ;;; leer (fun t => filas_de P t c))%m.

(** The first row the query sees, [None] standing for [null]. *)
Definition findFirst_ (m : modelo) (w : list (string * filtro))
    (s : option (list string)) : M (option fila) :=
  let c := mkConsulta m findFirst w s [] in
  (emitir P c ;;; leer (fun t => hd_error (filas_de P t c)))%m.

Definition count_ (m : modelo) (w : list (string * filtro)) : M Z :=
  let c := mkConsulta m count w None [] in
  (emitir P c ;;; leer (fun t => Z.of_nat (List.length (filas_de P t c))))%m.

End Cliente.

End Cliente.
Export Cliente.

(* ------------------------------------------------------------------ *)
(** ** ControladorMantenedores *)
(* ------------------------------------------------------------------ *)

(** The module [configuracion/constantes]: the entries of its two tables, in
    the order [Object.entries] lists them. *)
Record Constantes : Type := mkConstantes {
  PLANTAS : list (string * string);
  UNIDADES_MEDIDA : list (string * string)
}.

Module ControladorMantenedores.

Fixpoint mapear {A B : Type} (f : A -> resultado B) (xs : list A)
    : resultado (list B) :=
  match xs with
  | [] => Ok []
  | x :: r =>
      match f x with
      | Lanza e => Lanza e
      | Ok y =>
          match mapear f r with
          | Lanza e => Lanza e
          | Ok ys => Ok (y :: ys)
          end
      end
  end.

(** [activo === 'true' || activo === true] *)
Definition es_activo (activo : valor) : bool :=
  igual_estricto activo (VStr "true") || igual_estricto activo (VBool true).

(** The object built from a material row (the same literal in the listing
    and in the lookup by code). *)
Definition formatear_material (material : fila) : valor :=
  VObj [("id", prop "id" material);
        ("codigo", prop "codigo_ranco" material);
        ("nombre", prop "nombre_material" material);
        ("unidad_medida", prop "unidad_medida" material);
        ("requiere_frio",
         VBool (igual_estricto (prop "frio" material) (VStr "Si")
                || igual_estricto (prop "frio" material) (VStr "Sí")));
        ("activo", prop "activo" material)].

(** [`PROV${id.toString().padStart(3, '0')}`] and its sibling for [UB]. *)
Definition codigo_sintetico (prefijo : string) (id : valor) : resultado string :=
  match toString id with
  | Lanza e => Lanza e
  | Ok s => Ok (prefijo ++ padStart s 3 "0")
  end.

Definition formatear_proveedor (proveedor : fila) : resultado valor :=
  match codigo_sintetico "PROV" (prop "id" proveedor) with
  | Lanza e => Lanza e
  | Ok codigo =>
      Ok (VObj [("id", prop "id" proveedor);
                ("codigo", VStr codigo);
                ("nombre", prop "title" proveedor);
                ("rut", VNull);
                ("contacto", VNull);
                ("telefono", VNull);
                ("email", VNull);
                ("activo", prop "activo" proveedor)])
  end.

Definition formatear_ubicacion (ubicacion : fila) : resultado valor :=
  match codigo_sintetico "UB" (prop "id" ubicacion) with
  | Lanza e => Lanza e
  | Ok codigo =>
      Ok (VObj [("id", prop "id" ubicacion);
                ("codigo", VStr codigo);
                ("nombre", prop "title" ubicacion);
                ("bodega", prop "bodega_deposito" ubicacion);
                ("planta", prop "planta" ubicacion);
                ("tipo", VStr "bodega");
                ("activo", prop "activo" ubicacion)])
  end.

Definition formatear_temporada (temporadaActiva : fila) : valor :=
  VObj [("id", prop "id" temporadaActiva);
        ("codigo", prop "title" temporadaActiva);
        ("nombre", prop "title" temporadaActiva);
        ("fecha_inicio", prop "fecha_inicio" temporadaActiva);
        ("fecha_termino", prop "fecha_fin" temporadaActiva);
        ("activa", prop "activo" temporadaActiva)].

Definition formatear_tipo (tipo : fila) : valor :=
  VObj [("id", prop "id" tipo);
        ("codigo", prop "title" tipo);
        ("nombre", prop "title" tipo);
        ("descripcion", prop "descripcion" tipo);
        ("activo", prop "activo" tipo)].

(** The [where] object of the supplier lookup by code; the branch on
    [!isNaN(id)] is the match on what [parseInt] returned. *)
Definition whereClause (codigo : string) : list (string * filtro) :=
  if startsWith codigo "PROV" then
    match parseInt (replace "PROV" "" codigo) with
    | Num id => [("id", igual (VNum id)); ("activo", igual (VBool true))]
    | Infinity s => [("id", igual_infinito s); ("activo", igual (VBool true))]
    | NaN => [("title", contains_insensitive codigo);
              ("activo", igual (VBool true))]
    end
  else [("title", contains_insensitive codigo);
        ("activo", igual (VBool true))].

Section Controlador.

Variable CONSTANTES : Constantes.
Variable P : Plataforma.

Open Scope m_scope.

Definition en_error (linea mensaje codigo : string) (e : excepcion) : M unit :=
  console_error linea e ;;;
  responder (fun r => ManejadorRespuestas.error r (VStr mensaje) (Some codigo) None).

Definition obtenerPlantas (req : Req) : M unit :=
  intentar
    (let plantas :=
       map (fun cv : string * string =>
              let valor := snd cv in
              VObj [("codigo", VStr valor);
                    ("nombre", VStr valor);
                    ("descripcion", VStr ("Planta " ++ valor))])
           (PLANTAS CONSTANTES) in
     responder (fun r => ManejadorRespuestas.exito r (VArr plantas)
                           (Some "Plantas obtenidas exitosamente") None))
    (en_error "Error al obtener plantas:"
              "Error al obtener plantas" "ERROR_OBTENER_PLANTAS").

Definition obtenerMateriales (req : Req) : M unit :=
  intentar
    (let activo := por_defecto (prop "activo" (query req)) (VBool true) in
     materiales <- findMany_ P materiales
       [("activo", igual (VBool (es_activo activo)))]
       (Some ["id"; "codigo_ranco"; "nombre_material"; "unidad_medida";
              "frio"; "activo"])
       [("nombre_material", asc)] ;;
     let materialesFormateados := map formatear_material materiales in
     responder (fun r => ManejadorRespuestas.exito r (VArr materialesFormateados)
                           (Some "Materiales obtenidos exitosamente") None))
    (en_error "Error al obtener materiales:"
              "Error al obtener materiales" "ERROR_OBTENER_MATERIALES").

Definition obtenerMaterialPorCodigo (req : Req) : M unit :=
  intentar
    (let codigo := param_valor (param "codigo" (params req)) in
     material <- findFirst_ P materiales
       [("codigo_ranco", igual codigo); ("activo", igual (VBool true))]
       (Some ["id"; "codigo_ranco"; "nombre_material"; "unidad_medida";
              "frio"; "activo"]) ;;
     match material with
     | None =>
         responder (fun r => ManejadorRespuestas.noEncontrado r
           (Some ("Material con código " ++ ToString codigo ++ " no encontrado")))
     | Some material =>
         let materialFormateado := formatear_material material in
         responder (fun r => ManejadorRespuestas.exito r materialFormateado
                               (Some "Material obtenido exitosamente") None)
     end)
    (en_error "Error al obtener material por código:"
              "Error al obtener material" "ERROR_OBTENER_MATERIAL").

Definition obtenerProveedores (req : Req) : M unit :=
  intentar
    (let activo := por_defecto (prop "activo" (query req)) (VBool true) in
     proveedores <- findMany_ P proveedores
       [("activo", igual (VBool (es_activo activo)))]
       (Some ["id"; "title"; "activo"])
       [("title", asc)] ;;
     proveedoresFormateados <- elevar (mapear formatear_proveedor proveedores) ;;
     responder (fun r => ManejadorRespuestas.exito r (VArr proveedoresFormateados)
                           (Some "Proveedores obtenidos exitosamente") None))
    (en_error "Error al obtener proveedores:"
              "Error al obtener proveedores" "ERROR_OBTENER_PROVEEDORES").

Definition obtenerProveedorPorCodigo (req : Req) : M unit :=
  intentar
    (match presente (param "codigo" (params req)) with
     | None =>
         responder (fun r => ManejadorRespuestas.validacionFallida r
                               (VArr [VStr "Código de proveedor requerido"])
                               (Some "Datos de entrada inválidos"))
     | Some codigo =>
         proveedor <- findFirst_ P proveedores (whereClause codigo)
                        (Some ["id"; "title"; "activo"]) ;;
         match proveedor with
         | None =>
             responder (fun r => ManejadorRespuestas.noEncontrado r
               (Some ("Proveedor con código " ++ codigo ++ " no encontrado")))
         | Some proveedor =>
             proveedorFormateado <- elevar (formatear_proveedor proveedor) ;;
             responder (fun r => ManejadorRespuestas.exito r proveedorFormateado
                                   (Some "Proveedor obtenido exitosamente") None)
         end
     end)
    (en_error "Error al obtener proveedor por código:"
              "Error al obtener proveedor" "ERROR_OBTENER_PROVEEDOR").

Definition obtenerUbicaciones (req : Req) : M unit :=
  intentar
    (let activo := por_defecto (prop "activo" (query req)) (VBool true) in
     ubicaciones <- findMany_ P ubicacion
       [("activo", igual (VBool (es_activo activo)))]
       (Some ["id"; "title"; "bodega_deposito"; "planta"; "activo"])
       [("planta", asc); ("bodega_deposito", asc); ("title", asc)] ;;
     ubicacionesFormateadas <- elevar (mapear formatear_ubicacion ubicaciones) ;;
     responder (fun r => ManejadorRespuestas.exito r (VArr ubicacionesFormateadas)
                           (Some "Ubicaciones obtenidas exitosamente") None))
    (en_error "Error al obtener ubicaciones:"
              "Error al obtener ubicaciones" "ERROR_OBTENER_UBICACIONES").

Definition obtenerUbicacionesPorPlanta (req : Req) : M unit :=
  intentar
    (let activo := por_defecto (prop "activo" (query req)) (VBool true) in
     match presente (param "planta" (params req)) with
     | None =>
         responder (fun r => ManejadorRespuestas.validacionFallida r
                               (VArr [VStr "Planta requerida"])
                               (Some "Datos de entrada inválidos"))
     | Some planta =>
         ubicaciones <- findMany_ P ubicacion
           [("planta", igual (VStr (toUpperCase P planta)));
            ("activo", igual (VBool (es_activo activo)))]
           (Some ["id"; "title"; "bodega_deposito"; "planta"; "activo"])
           [("bodega_deposito", asc); ("title", asc)] ;;
         ubicacionesFormateadas <- elevar (mapear formatear_ubicacion ubicaciones) ;;
         responder (fun r => ManejadorRespuestas.exito r (VArr ubicacionesFormateadas)
           (Some ("Ubicaciones de planta " ++ toUpperCase P planta
                  ++ " obtenidas exitosamente")) None)
     end)
    (en_error "Error al obtener ubicaciones por planta:"
              "Error al obtener ubicaciones por planta"
              "ERROR_OBTENER_UBICACIONES_PLANTA").

Definition obtenerTemporadas (req : Req) : M unit :=
  intentar
    (let activo := por_defecto (prop "activo" (query req)) (VBool true) in
     temporadas <- findMany_ P temporadas_app
       [("activo", igual (VBool (es_activo activo)))]
       (Some ["id"; "title"; "fecha_inicio"; "fecha_fin"; "activo"])
       [("fecha_inicio", desc)] ;;
     responder (fun r => ManejadorRespuestas.exito r (VArr (map VObj temporadas))
                           (Some "Temporadas obtenidas exitosamente") None))
    (en_error "Error al obtener temporadas:"
              "Error al obtener temporadas" "ERROR_OBTENER_TEMPORADAS").

Definition obtenerTemporadaActiva (req : Req) : M unit :=
  intentar
    (temporadaActiva <- findFirst_ P temporadas_app
       [("activo", igual (VBool true))]
       (Some ["id"; "title"; "fecha_inicio"; "fecha_fin"; "activo"]) ;;
     match temporadaActiva with
     | None =>
         responder (fun r => ManejadorRespuestas.noEncontrado r
                               (Some "No hay temporada activa configurada"))
     | Some temporadaActiva =>
         let temporadaFormateada := formatear_temporada temporadaActiva in
         responder (fun r => ManejadorRespuestas.exito r temporadaFormateada
                               (Some "Temporada activa obtenida exitosamente") None)
     end)
    (en_error "Error al obtener temporada activa:"
              "Error al obtener temporada activa"
              "ERROR_OBTENER_TEMPORADA_ACTIVA").

Definition obtenerTiposMovimiento (req : Req) : M unit :=
  intentar
    (let activo := por_defecto (prop "activo" (query req)) (VBool true) in
     tiposMovimiento <- findMany_ P tipo_movimientos_app
       [("activo", igual (VBool (es_activo activo)))]
       (Some ["id"; "title"; "descripcion"; "activo"])
       [("title", asc)] ;;
     let tiposMovimientoFormateados := map formatear_tipo tiposMovimiento in
     responder (fun r => ManejadorRespuestas.exito r (VArr tiposMovimientoFormateados)
                           (Some "Tipos de movimiento obtenidos exitosamente") None))
    (en_error "Error al obtener tipos de movimiento:"
              "Error al obtener tipos de movimiento"
              "ERROR_OBTENER_TIPOS_MOVIMIENTO").

Definition obtenerUnidadesMedida (req : Req) : M unit :=
  intentar
    (let unidadesMedida :=
       map (fun cv : string * string =>
              let clave := fst cv in
              let valor := snd cv in
              VObj [("codigo", VStr valor);
                    ("nombre", VStr (replace_todos "_" " " (toLowerCase P clave)));
                    ("descripcion", VStr valor)])
           (UNIDADES_MEDIDA CONSTANTES) in
     responder (fun r => ManejadorRespuestas.exito r (VArr unidadesMedida)
                           (Some "Unidades de medida obtenidas exitosamente") None))
    (en_error "Error al obtener unidades de medida:"
              "Error al obtener unidades de medida"
              "ERROR_OBTENER_UNIDADES_MEDIDA").

(** The value of [temporadaActiva ? temporadaActiva.nombre : null]. *)
Definition nombre_o_null (temporadaActiva : option fila) : valor :=
  match temporadaActiva with
  | Some t => prop "nombre" t
  | None => VNull
  end.

Definition obtenerResumenMantenedores (req : Req) : M unit :=
  intentar
    (todos <- Promise_all5
       (count_ P materiales [("activo", igual (VBool true))])
       (count_ P proveedores [("activo", igual (VBool true))])
       (count_ P ubicacion [("activo", igual (VBool true))])
       (findFirst_ P temporadas_app [("activa", igual (VBool true))] None)
       (count_ P tipo_movimientos_app [("activo", igual (VBool true))]) ;;
     let '(totalMateriales, totalProveedores, totalUbicaciones,
           temporadaActiva, totalTiposMovimiento) := todos in
     let resumen :=
       VObj [("materiales", VNum totalMateriales);
             ("proveedores", VNum totalProveedores);
             ("ubicaciones", VNum totalUbicaciones);
             ("tiposMovimiento", VNum totalTiposMovimiento);
             ("plantas", VNum (Z.of_nat (List.length (PLANTAS CONSTANTES))));
             ("unidadesMedida",
              VNum (Z.of_nat (List.length (UNIDADES_MEDIDA CONSTANTES))));
             ("temporadaActiva", nombre_o_null temporadaActiva)] in
     responder (fun r => ManejadorRespuestas.exito r resumen
                           (Some "Resumen de mantenedores obtenido exitosamente")
                           None))
    (en_error "Error al obtener resumen de mantenedores:"
              "Error al obtener resumen de mantenedores"
              "ERROR_OBTENER_RESUMEN_MANTENEDORES").

(** The twelve static methods of the class. *)
Definition manejadores : list (Req -> M unit) :=
  [obtenerPlantas; obtenerMateriales; obtenerMaterialPorCodigo;
   obtenerProveedores; obtenerProveedorPorCodigo; obtenerUbicaciones;
   obtenerUbicacionesPorPlanta; obtenerTemporadas; obtenerTemporadaActiva;
   obtenerTiposMovimiento; obtenerUnidadesMedida; obtenerResumenMantenedores].

End Controlador.

End ControladorMantenedores.

(* ------------------------------------------------------------------ *)
(** ** Vocabulary of the specification *)
(* ------------------------------------------------------------------ *)

Module Especificacion.

Import ControladorMantenedores.

Definition campos (v : valor) : objeto :=
  match v with
  | VObj o => o
  | _ => []
  end.

Definition elementos (v : valor) : list valor :=
  match v with
  | VArr xs => xs
  | _ => []
  end.

(** The properties of a body as they appear on the wire. *)
Definition escrito (v : valor) : objeto := campos (serializar v).

Definition es_digito (a : ascii) : bool :=
  ((48 <=? N_of_ascii a) && (N_of_ascii a <=? 57))%N.

Fixpoint todos_digitos (s : string) : bool :=
  match s with
  | EmptyString => true
  | String a r => es_digito a && todos_digitos r
  end.

(** One decimal digit or more, and nothing else. *)
Definition solo_digitos (s : string) : bool :=
  match s with
  | EmptyString => false
  | _ => todos_digitos s
  end.

Fixpoint valor_acc (s : string) (a : N) : N :=
  match s with
  | EmptyString => a
  | String c r => valor_acc r (10 * a + (N_of_ascii c - 48))%N
  end.

(** The number a string of decimal digits denotes. *)
Definition valor_decimal (s : string) : N := valor_acc s 0.

(** The first character of a string. *)
Definition primero (s : string) : option ascii :=
  match s with
  | EmptyString => None
  | String a _ => Some a
  end.

(** The pattern ["PROV" + digits] of the supplier codes. *)
Definition patron_PROV_digitos (codigo : string) : bool :=
  String.prefix "PROV" codigo && solo_digitos (quitar 4 codigo).


(** A computation that only reads: whatever the world, it leaves the tables
    as they were and every query it issues is a reading one. *)
Definition lectura {A : Type} (m : M A) : Prop :=
  forall w : Mundo,
    tablas (fst (m w)) = tablas w
    /\ falla (fst (m w)) = falla w
    /\ exists cs : list consulta,
         traza (fst (m w)) = (traza w ++ cs)%list
         /\ forallb (fun c => solo_lectura (op c)) cs = true.

(** The five queries of the summary, in the order of the array. *)
Definition consultas_resumen : list consulta :=
  [mkConsulta materiales count [("activo", igual (VBool true))] None [];
   mkConsulta proveedores count [("activo", igual (VBool true))] None [];
   mkConsulta ubicacion count [("activo", igual (VBool true))] None [];
   mkConsulta temporadas_app findFirst [("activa", igual (VBool true))] None [];
   mkConsulta tipo_movimientos_app count [("activo", igual (VBool true))] None []].

(** Whether one of the queries [cs], issued from position [n] on, is
    rejected. *)
Fixpoint alguna_falla (f : nat -> consulta -> bool) (n : nat)
    (cs : list consulta) : bool :=
  match cs with
  | [] => false
  | c :: r => f n c || alguna_falla f (S n) r
  end.

(** The listing handlers that read the [activo] parameter, each with the
    model it queries. *)
Definition listados (P : Plataforma) : list ((Req -> M unit) * modelo) :=
  [(obtenerMateriales P, materiales);
   (obtenerProveedores P, proveedores);
   (obtenerUbicaciones P, ubicacion);
   (obtenerTemporadas P, temporadas_app);
   (obtenerTiposMovimiento P, tipo_movimientos_app)].

(** The first row of a table whose field [campo] is [true]. *)
Definition primera_con (campo : string) (filas : list fila) : option fila :=
  find (fun t => igual_estricto (prop campo t) (VBool true)) filas.

(** The summary object, from the tables: the number of rows whose [activo]
    is [true] in four of them, the sizes of the two constant tables, and
    the [nombre] of the first season whose [activa] is [true]. *)
Definition resumen_de (CONSTANTES : Constantes) (t : tablas_t) : valor :=
  let activos m :=
    VNum (Z.of_nat
            (List.length
               (filter (fun f => igual_estricto (prop "activo" f) (VBool true))
                       (t m)))) in
  VObj [("materiales", activos materiales);
        ("proveedores", activos proveedores);
        ("ubicaciones", activos ubicacion);
        ("tiposMovimiento", activos tipo_movimientos_app);
        ("plantas", VNum (Z.of_nat (List.length (PLANTAS CONSTANTES))));
        ("unidadesMedida",
         VNum (Z.of_nat (List.length (UNIDADES_MEDIDA CONSTANTES))));
        ("temporadaActiva",
         match primera_con "activa" (t temporadas_app) with
         | Some fila => prop "nombre" fila
         | None => VNull
         end)].

(** The error envelope a handler writes from its [catch]. *)
Definition sobre_error (estado : Z) (mensaje codigo : string) : Respuesta :=
  mkRespuesta estado
    (VObj [("exito", VBool false);
           ("mensaje", VStr mensaje);
           ("codigo", VStr codigo)]).

Definition sobre_validacion (error mensaje codigo : string) : Respuesta :=
  mkRespuesta 400
    (VObj [("exito", VBool false);
           ("mensaje", VStr mensaje);
           ("codigo", VStr codigo);
           ("errores", VArr [VStr error])]).

End Especificacion.
Import Especificacion.

(* ------------------------------------------------------------------ *)
(** ** A platform and a store to run the handlers on *)
(* ------------------------------------------------------------------ *)

Module Referencia.

Definition mayuscula (a : ascii) : ascii :=
  let n := N_of_ascii a in
  if ((97 <=? n) && (n <=? 122))%N then ascii_of_N (n - 32) else a.

Definition minuscula (a : ascii) : ascii :=
  let n := N_of_ascii a in
  if ((65 <=? n) && (n <=? 90))%N then ascii_of_N (n + 32) else a.

Fixpoint mapear_cadena (f : ascii -> ascii) (s : string) : string :=
  match s with
  | EmptyString => EmptyString
  | String a r => String (f a) (mapear_cadena f r)
  end.

Fixpoint contiene (s sub : string) : bool :=
  String.prefix sub s
  || match s with
     | EmptyString => false
     | String _ r => contiene r sub
     end.

Definition comparar_valor (a b : valor) : comparison :=
  match a, b with
  | VNum x, VNum y => Z.compare x y
  | VStr x, VStr y => String.compare x y
  | _, _ => Eq
  end.

Fixpoint comparar_fila (o : list (string * direccion)) (f g : fila) : comparison :=
  match o with
  | [] => Eq
  | (k, d) :: r =>
      match comparar_valor (prop k f) (prop k g) with
      | Eq => comparar_fila r f g
      | c => match d with
             | asc => c
             | desc => CompOpp c
             end
      end
  end.

Fixpoint insertar (o : list (string * direccion)) (f : fila) (fs : list fila)
    : list fila :=
  match fs with
  | [] => [f]
  | g :: r =>
      match comparar_fila o f g with
      | Gt => g :: insertar o f r
      | _ => f :: fs
      end
  end.

Definition ordenar_filas (o : list (string * direccion)) (fs : list fila)
    : list fila :=
  fold_right (insertar o) [] fs.

(** ASCII case mappings and a byte-wise collation. *)
Definition plataforma : Plataforma :=
  mkPlataforma (mapear_cadena mayuscula) (mapear_cadena minuscula)
    (fun t s => contiene (mapear_cadena minuscula t) (mapear_cadena minuscula s))
    ordenar_filas.

Definition constantes : Constantes :=
  mkConstantes [("RANCAGUA", "RANCAGUA"); ("CHIMBARONGO", "CHIMBARONGO")]
               [("KILOGRAMO", "KG"); ("UNIDAD", "UN"); ("METRO_CUBICO", "M3")].

Definition tablas_ejemplo : tablas_t :=
  fun m =>
    match m with
    | materiales =>
        [[("id", VNum 1); ("codigo_ranco", VStr "M-01");
          ("nombre_material", VStr "Bins"); ("unidad_medida", VStr "UN");
          ("frio", VStr "Sí"); ("activo", VBool true)];
         [("id", VNum 2); ("codigo_ranco", VStr "M-02");
          ("nombre_material", VStr "Azufre"); ("unidad_medida", VStr "KG");
          ("frio", VNull); ("activo", VBool true)];
         [("id", VNum 3); ("codigo_ranco", VStr "M-03");
          ("nombre_material", VStr "Caja"); ("unidad_medida", VStr "UN");
          ("frio", VStr "No"); ("activo", VBool false)]]
    | proveedores =>
        [[("id", VNum 7); ("title", VStr "Acme Ltda"); ("activo", VBool true)];
         [("id", VNum 12); ("title", VStr "Agro Sur"); ("activo", VBool true)];
         [("id", VNum 30); ("title", VStr "PROV12abc SpA"); ("activo", VBool true)];
         [("id", VNum 1234); ("title", VStr "Frutas"); ("activo", VBool false)]]
    | ubicacion =>
        [[("id", VNum 7); ("title", VStr "A1"); ("bodega_deposito", VStr "B1");
          ("planta", VStr "RANCAGUA"); ("activo", VBool true)]]
    | temporadas_app =>
        [[("id", VNum 1); ("title", VStr "2024-2025");
          ("fecha_inicio", VStr "2024-09-01"); ("fecha_fin", VStr "2025-08-31");
          ("activo", VBool true); ("activa", VBool true);
          ("nombre", VStr "Temporada 24/25")]]
    | tipo_movimientos_app =>
        [[("id", VNum 1); ("title", VStr "INGRESO");
          ("descripcion", VStr "Ingreso a bodega"); ("activo", VBool true)]]
    end.

(** No query is rejected. *)
Definition mundo : Mundo :=
  mkMundo tablas_ejemplo (fun _ _ => false) [] [] res_nueva.

(** The fourth query issued (the season lookup of the summary) is
    rejected. *)
Definition mundo_falla : Mundo :=
  mkMundo tablas_ejemplo (fun n _ => Nat.eqb n 3) [] [] res_nueva.

End Referencia.

(* ------------------------------------------------------------------ *)
(** ** Vocabulary for the handlers taken as a whole *)
(* ------------------------------------------------------------------ *)

Module Cobertura.

Import ControladorMantenedores.

Definition es_cadena (v : valor) : bool :=
  match v with
  | VStr _ => true
  | _ => false
  end.

(** The envelope contract [{exito, mensaje, datos?, codigo?}] on one
    response: [exito] says whether the status is 200, [mensaje] is a string,
    a success carries [datos] and no [codigo], a failure a string [codigo]
    and no [datos]. *)
Definition sobre_valido (r : Respuesta) : bool :=
  match cuerpo r with
  | VObj o =>
      igual_estricto (prop "exito" o) (VBool (codigoHTTP r =? 200))
      && es_cadena (prop "mensaje" o)
      && (if codigoHTTP r =? 200
          then tiene_clave "datos" o && negb (tiene_clave "codigo" o)
          else es_cadena (prop "codigo" o) && negb (tiene_clave "datos" o))
  | _ => false
  end.

(** A computation that writes no response and no console line; when it
    returns, none of the queries it issued was rejected. *)
Definition tranquilo {A : Type} (m : M A) : Prop :=
  forall w : Mundo,
    res (fst (m w)) = res w
    /\ consola (fst (m w)) = consola w
    /\ falla (fst (m w)) = falla w
    /\ exists cs : list consulta,
         traza (fst (m w)) = (traza w ++ cs)%list
         /\ (forall a, snd (m w) = Ok a ->
             alguna_falla (falla w) (List.length (traza w)) cs = false).

(** The body of a [try]: it writes no console line; either it returns,
    having written one response that keeps the contract and is no 500, no
    query having been rejected, or it throws, having written none. *)
Definition cuerpo_ok (m : M unit) : Prop :=
  forall w : Mundo,
    consola (fst (m w)) = consola w
    /\ falla (fst (m w)) = falla w
    /\ exists cs : list consulta,
         traza (fst (m w)) = (traza w ++ cs)%list
         /\ match snd (m w) with
            | Ok _ =>
                alguna_falla (falla w) (List.length (traza w)) cs = false
                /\ exists r : Respuesta,
                     enviadas (res (fst (m w))) = (enviadas (res w) ++ [r])%list
                     /\ sobre_valido r = true
                     /\ In (codigoHTTP r) [200; 400; 404]
            | Lanza _ => enviadas (res (fst (m w))) = enviadas (res w)
            end.

(** A whole handler, whose [catch] logs under [linea] and answers with
    [mensaje] and [codigo]: it returns, having written exactly one
    response; either that is the handler's own 500 and one line was logged,
    or it keeps the contract with another status, nothing was logged and no
    query was rejected. *)
Definition manejador_ok (linea mensaje codigo : string) (h : M unit) : Prop :=
  forall w : Mundo,
    snd (h w) = Ok tt
    /\ exists (cs : list consulta) (r : Respuesta),
         traza (fst (h w)) = (traza w ++ cs)%list
         /\ enviadas (res (fst (h w))) = (enviadas (res w) ++ [r])%list
         /\ ((r = sobre_error 500 mensaje codigo
              /\ exists e, consola (fst (h w)) = (consola w ++ [(linea, e)])%list)
             \/ (sobre_valido r = true
                 /\ In (codigoHTTP r) [200; 400; 404]
                 /\ consola (fst (h w)) = consola w
                 /\ alguna_falla (falla w) (List.length (traza w)) cs = false)).

(** The twelve handlers, each with the line its [catch] logs and the message
    and code it answers with. *)
Definition manejadores_errores (CONSTANTES : Constantes) (P : Plataforma)
    : list ((Req -> M unit) * (string * string * string)) :=
  [(obtenerPlantas CONSTANTES,
    ("Error al obtener plantas:", "Error al obtener plantas",
     "ERROR_OBTENER_PLANTAS"));
   (obtenerMateriales P,
    ("Error al obtener materiales:", "Error al obtener materiales",
     "ERROR_OBTENER_MATERIALES"));
   (obtenerMaterialPorCodigo P,
    ("Error al obtener material por código:", "Error al obtener material",
     "ERROR_OBTENER_MATERIAL"));
   (obtenerProveedores P,
    ("Error al obtener proveedores:", "Error al obtener proveedores",
     "ERROR_OBTENER_PROVEEDORES"));
   (obtenerProveedorPorCodigo P,
    ("Error al obtener proveedor por código:", "Error al obtener proveedor",
     "ERROR_OBTENER_PROVEEDOR"));
   (obtenerUbicaciones P,
    ("Error al obtener ubicaciones:", "Error al obtener ubicaciones",
     "ERROR_OBTENER_UBICACIONES"));
   (obtenerUbicacionesPorPlanta P,
    ("Error al obtener ubicaciones por planta:",
     "Error al obtener ubicaciones por planta",
     "ERROR_OBTENER_UBICACIONES_PLANTA"));
   (obtenerTemporadas P,
    ("Error al obtener temporadas:", "Error al obtener temporadas",
     "ERROR_OBTENER_TEMPORADAS"));
   (obtenerTemporadaActiva P,
    ("Error al obtener temporada activa:", "Error al obtener temporada activa",
     "ERROR_OBTENER_TEMPORADA_ACTIVA"));
   (obtenerTiposMovimiento P,
    ("Error al obtener tipos de movimiento:",
     "Error al obtener tipos de movimiento",
     "ERROR_OBTENER_TIPOS_MOVIMIENTO"));
   (obtenerUnidadesMedida CONSTANTES P,
    ("Error al obtener unidades de medida:",
     "Error al obtener unidades de medida",
     "ERROR_OBTENER_UNIDADES_MEDIDA"));
   (obtenerResumenMantenedores CONSTANTES P,
    ("Error al obtener resumen de mantenedores:",
     "Error al obtener resumen de mantenedores",
     "ERROR_OBTENER_RESUMEN_MANTENEDORES"))].

(** The query of each listing, for the [activo] asked for. *)
Definition consulta_listado (m : modelo) (b : bool) : consulta :=
  let w := [("activo", igual (VBool b))] in
  match m with
  | materiales =>
      mkConsulta m findMany w
        (Some ["id"; "codigo_ranco"; "nombre_material"; "unidad_medida";
               "frio"; "activo"])
        [("nombre_material", asc)]
  | proveedores =>
      mkConsulta m findMany w (Some ["id"; "title"; "activo"]) [("title", asc)]
  | ubicacion =>
      mkConsulta m findMany w
        (Some ["id"; "title"; "bodega_deposito"; "planta"; "activo"])
        [("planta", asc); ("bodega_deposito", asc); ("title", asc)]
  | temporadas_app =>
      mkConsulta m findMany w
        (Some ["id"; "title"; "fecha_inicio"; "fecha_fin"; "activo"])
        [("fecha_inicio", desc)]
  | tipo_movimientos_app =>
      mkConsulta m findMany w (Some ["id"; "title"; "descripcion"; "activo"])
        [("title", asc)]
  end.

(** The queries a run has added to the trace. *)
Definition consultas_nuevas (w w' : Mundo) : list consulta :=
  skipn (List.length (traza w)) (traza w').

(** The response a run has written last. *)
Definition ultima (w' : Mundo) : Respuesta :=
  last (enviadas (res w')) (mkRespuesta 0 VNull).

(** A value of the [activo] query parameter that asks for active rows:
    none, the string "true" or the boolean [true]. *)
Definition pide_activos (v : valor) : bool :=
  match v with
  | VUndefined => true
  | VBool b => b
  | VStr s => String.eqb s "true"
  | _ => false
  end.

Fixpoint sin_caracter (c : ascii) (s : string) : bool :=
  match s with
  | EmptyString => true
  | String a r => negb (Ascii.eqb a c) && sin_caracter c r
  end.

(** The platform returns, from a sort, as many rows as it was given. *)
Definition ordenar_conserva_longitud (P : Plataforma) : Prop :=
  forall o fs, List.length (ordenar P o fs) = List.length fs.

(** The platform returns, from a sort, only rows it was given. *)
Definition ordenar_conserva_filas (P : Plataforma) : Prop :=
  forall o fs f, In f (ordenar P o fs) -> In f fs.

(** A store whose one season has [activa] [true] and no name: its [nombre]
    is [null]; no query is rejected. *)
Definition tablas_sin_nombre : tablas_t :=
  fun m =>
    match m with
    | temporadas_app =>
        [[("id", VNum 1); ("title", VStr "2024-2025");
          ("activo", VBool true); ("activa", VBool true); ("nombre", VNull)]]
    | _ => Referencia.tablas_ejemplo m
    end.

Definition mundo_sin_nombre : Mundo :=
  mkMundo tablas_sin_nombre (fun _ _ => false) [] [] res_nueva.

(** A store on which every query is rejected. *)
Definition mundo_caido : Mundo :=
  mkMundo Referencia.tablas_ejemplo (fun _ _ => true) [] [] res_nueva.

End Cobertura.
Import Cobertura.

(* ================================================================== *)
(** * Properties *)
(* ================================================================== *)

(** ** The primitives on small inputs *)

Example decimal_7 : decimal 7 = "7". Proof. reflexivity. Qed.
Example decimal_1234 : decimal 1234 = "1234". Proof. reflexivity. Qed.
Example decimal_0 : decimal 0 = "0". Proof. reflexivity. Qed.
Example decimal_1000 : decimal 1000 = "1000". Proof. reflexivity. Qed.
Example parseInt_007 : parseInt "007" = Num 7. Proof. reflexivity. Qed.
Example parseInt_vacio : parseInt "" = NaN. Proof. reflexivity. Qed.
Example parseInt_12abc : parseInt "12abc" = Num 12. Proof. reflexivity. Qed.
Example parseInt_hex : parseInt "0x1F" = Num 31. Proof. reflexivity. Qed.
Example parseInt_neg : parseInt " -5" = Num (-5). Proof. reflexivity. Qed.
Example parseInt_0x : parseInt "0x" = NaN. Proof. reflexivity. Qed.
Example replace_PROV : replace "PROV" "" "PROV007" = "007". Proof. reflexivity. Qed.
Example padStart_7 : padStart "7" 3 "0" = "007". Proof. reflexivity. Qed.
Example longitud_Si : longitud "Sí" = 2%nat. Proof. reflexivity. Qed.

(** ** The envelope helper *)

Section Sobres.

Import ManejadorRespuestas.

Lemma enviadas_json (body : valor) (c : Z) (r : Res) :
  enviadas (json body (status c r)) = (enviadas r ++ [mkRespuesta c body])%list.
Proof. reflexivity. Qed.

(** C1.  [exito] writes one response more; its status is the one given, 200
    when none is; its body has [exito: true], the message given (the default
    one when none is) and the payload; [total] is the length of the payload
    when the payload is a list and [undefined] otherwise, in which case the
    body on the wire has no [total] at all. *)
Theorem exito_total (res : Res) (datos : valor)
    (mensaje : option string) (codigoEstado : option Z) :
  exists body : objeto,
    enviadas (exito res datos mensaje codigoEstado)
    = (enviadas res ++
         [mkRespuesta (match codigoEstado with Some c => c | None => 200 end)
                      (VObj body)])%list
    /\ prop "exito" body = VBool true
    /\ prop "mensaje" body
       = VStr (match mensaje with Some m => m | None => "Operación exitosa" end)
    /\ prop "datos" body = datos
    /\ prop "total" body
       = (if isArray datos
          then VNum (Z.of_nat (List.length (elementos datos)))
          else VUndefined)
    /\ prop "exito" (escrito (VObj body)) = VBool true
    /\ prop "total" (escrito (VObj body)) = prop "total" body
    /\ tiene_clave "total" (escrito (VObj body)) = isArray datos
    /\ List.length (elementos (prop "datos" (escrito (VObj body))))
       = List.length (elementos datos).
Proof.
  unfold exito. rewrite enviadas_json.
  eexists. split; [reflexivity|].
  destruct mensaje, codigoEstado, datos; cbn;
    rewrite ?length_map; repeat split; reflexivity.
Qed.

(** C6, as the specification words it, at one input: the body that
    [validacionFallida] writes does not carry the code "VALIDATION_FAILED",
    the one [noEncontrado] writes does not carry "RESOURCE_NOT_FOUND", and
    the default code of [error] is not "GENERIC_ERROR". *)
Lemma codigos_no_en_ingles :
  ~ (prop "codigo"
       (campos (cuerpo (last (enviadas (validacionFallida res_nueva (VArr []) None))
                             (mkRespuesta 0 VNull))))
     = VStr "VALIDATION_FAILED")
  /\ ~ (prop "codigo"
          (campos (cuerpo (last (enviadas (noEncontrado res_nueva None))
                                (mkRespuesta 0 VNull))))
        = VStr "RESOURCE_NOT_FOUND")
  /\ ~ (prop "codigo"
          (campos (cuerpo (last (enviadas (error res_nueva (VStr "x") None None))
                                (mkRespuesta 0 VNull))))
        = VStr "GENERIC_ERROR").
Proof. repeat split; cbn; discriminate. Qed.

(** C6, amended.  For every input the three error constructors write one
    response more, with [exito: false]: [validacionFallida] always with
    status 400, code "VALIDACION_FALLIDA" and the list of errors;
    [noEncontrado] always with status 404 and code "RECURSO_NO_ENCONTRADO";
    [error] with the status and code given, 500 and "ERROR_GENERICO" when
    none is. *)
Theorem sobres_de_error (res : Res) (errores mensaje : valor)
    (m : option string) (codigo : option string) (codigoEstado : option Z) :
  enviadas (validacionFallida res errores m)
  = (enviadas res ++
       [mkRespuesta 400
          (VObj [("exito", VBool false);
                 ("mensaje", VStr (match m with
                                   | Some x => x
                                   | None => "Datos de entrada inválidos"
                                   end));
                 ("codigo", VStr "VALIDACION_FALLIDA");
                 ("errores", errores)])])%list
  /\ enviadas (noEncontrado res m)
     = (enviadas res ++
          [mkRespuesta 404
             (VObj [("exito", VBool false);
                    ("mensaje", VStr (match m with
                                      | Some x => x
                                      | None => "Recurso no encontrado"
                                      end));
                    ("codigo", VStr "RECURSO_NO_ENCONTRADO")])])%list
  /\ enviadas (error res mensaje codigo codigoEstado)
     = (enviadas res ++
          [mkRespuesta (match codigoEstado with Some c => c | None => 500 end)
             (VObj [("exito", VBool false);
                    ("mensaje", mensaje);
                    ("codigo", VStr (match codigo with
                                     | Some c => c
                                     | None => "ERROR_GENERICO"
                                     end))])])%list.
Proof.
  repeat split; destruct m; try destruct codigo; try destruct codigoEstado;
    reflexivity.
Qed.

End Sobres.

(** ** Decimal numerals and the synthetic codes *)

Section Codigos.

Import ControladorMantenedores.

Lemma N_of_digito (d : N) : (d < 10)%N -> N_of_ascii (digito d) = (48 + d)%N.
Proof.
  intros H. unfold digito. apply N_ascii_embedding. lia.
Qed.

Lemma es_digito_digito (d : N) : (d < 10)%N -> es_digito (digito d) = true.
Proof.
  intros H. unfold es_digito. rewrite (N_of_digito d H).
  apply andb_true_intro. split; apply N.leb_le; lia.
Qed.

Lemma unidades_digito (a : ascii) : es_digito a = true -> unidades a = 1%nat.
Proof.
  unfold es_digito, unidades. intros H.
  apply andb_prop in H. destruct H as [H1 H2].
  apply N.leb_le in H1. apply N.leb_le in H2.
  destruct (N.leb_spec 128 (N_of_ascii a)); [lia|]. simpl.
  destruct (N.leb_spec 240 (N_of_ascii a)); [lia|]. reflexivity.
Qed.

Lemma longitud_digitos (s : string) :
  todos_digitos s = true -> longitud s = String.length s.
Proof.
  induction s as [|a r IH]; simpl; intros H; [reflexivity|].
  apply andb_prop in H. destruct H as [Ha Hr].
  rewrite (unidades_digito a Ha), (IH Hr). reflexivity.
Qed.

Lemma todos_digitos_app (s t : string) :
  todos_digitos (s ++ t) = todos_digitos s && todos_digitos t.
Proof.
  induction s as [|a r IH]; simpl; [reflexivity|].
  rewrite IH. apply andb_assoc.
Qed.

Lemma valor_acc_app (s t : string) (a : N) :
  valor_acc (s ++ t) a = valor_acc t (valor_acc s a).
Proof.
  revert a. induction s as [|c r IH]; simpl; intros a; [reflexivity|].
  apply IH.
Qed.

Lemma append_asociativa (s t u : string) : (s ++ t) ++ u = s ++ (t ++ u).
Proof. induction s as [|a r IH]; simpl; [reflexivity|]. rewrite IH. reflexivity. Qed.

Lemma decimal_aux_acc (p : nat) (n : N) (acc : string) :
  decimal_aux p n acc = decimal_aux p n "" ++ acc.
Proof.
  revert n acc. induction p as [|p IH]; intros n acc; simpl; [reflexivity|].
  destruct (n / 10 =? 0)%N; [reflexivity|].
  rewrite (IH _ (String _ acc)), (IH _ (String _ "")).
  rewrite append_asociativa. reflexivity.
Qed.

(** The numeral read digit by digit: the last digit is [n mod 10], what
    precedes it is the numeral of [n / 10]. *)
Lemma decimal_aux_paso (p : nat) (n : N) :
  decimal_aux (S p) n ""
  = (if (n / 10 =? 0)%N then "" else decimal_aux p (n / 10) "")
    ++ String (digito (n mod 10)) "".
Proof.
  simpl. destruct (n / 10 =? 0)%N; [reflexivity|].
  apply decimal_aux_acc.
Qed.

Lemma primero_app (s t : string) :
  s <> "" -> primero (s ++ t) = primero s.
Proof. destruct s; [congruence|reflexivity]. Qed.

Lemma decimal_aux_no_vacio (p : nat) (n : N) (acc : string) :
  decimal_aux (S p) n acc <> "".
Proof.
  revert n acc. induction p as [|p IH]; intros n acc.
  - simpl. destruct (n / 10 =? 0)%N; discriminate.
  - change (decimal_aux (S (S p)) n acc)
      with (if (n / 10 =? 0)%N
            then String (digito (n mod 10)) acc
            else decimal_aux (S p) (n / 10) (String (digito (n mod 10)) acc)).
    destruct (n / 10 =? 0)%N; [discriminate|apply IH].
Qed.

Lemma digito_cero (d : N) : (d < 10)%N -> digito d = "0"%char -> d = 0%N.
Proof.
  intros H E. apply (f_equal N_of_ascii) in E.
  rewrite (N_of_digito d H) in E.
  change (N_of_ascii "0"%char) with 48%N in E. lia.
Qed.

(** Enough steps: the numeral is made of digits, denotes [n], and starts
    with a zero only when [n] is zero. *)
Lemma decimal_aux_correcto (p : nat) :
  forall n : N,
    (n < 2 ^ N.of_nat (S p))%N ->
    todos_digitos (decimal_aux (S p) n "") = true
    /\ valor_decimal (decimal_aux (S p) n "") = n
    /\ (primero (decimal_aux (S p) n "") = Some "0"%char -> n = 0%N).
Proof.
  induction p as [|p IH]; intros n Hn.
  - assert (n < 2)%N as Hlt by (simpl in Hn; lia).
    assert (n / 10 = 0)%N as Hq by (apply N.div_small; lia).
    assert (n mod 10 = n)%N as Hm by (apply N.mod_small; lia).
    rewrite decimal_aux_paso, Hq, Hm. simpl.
    assert (n < 10)%N as H10 by lia.
    rewrite (es_digito_digito n H10). unfold valor_decimal. simpl.
    rewrite (N_of_digito n H10).
    split; [reflexivity|]. split; [lia|].
    intros E. injection E as E. exact (digito_cero n H10 E).
  - rewrite decimal_aux_paso.
    assert (n mod 10 < 10)%N as Hd by (apply N.mod_lt; lia).
    assert (n = 10 * (n / 10) + n mod 10)%N as Hdiv
      by (apply N.div_mod; lia).
    destruct (N.eqb_spec (n / 10) 0) as [Hq|Hq].
    + simpl. rewrite (es_digito_digito _ Hd). unfold valor_decimal. simpl.
      rewrite (N_of_digito _ Hd).
      split; [reflexivity|]. split; [lia|].
      intros E. injection E as E.
      pose proof (digito_cero _ Hd E). lia.
    + assert (n / 10 < 2 ^ N.of_nat (S p))%N as Hq2.
      { apply N.Div0.div_lt_upper_bound.
        replace (N.of_nat (S (S p))) with (N.succ (N.of_nat (S p))) in Hn by lia.
        rewrite N.pow_succ_r' in Hn. lia. }
      destruct (IH (n / 10)%N Hq2) as [Ht [Hv Hp]].
      pose proof (decimal_aux_no_vacio p (n / 10) "") as Hne.
      remember (decimal_aux (S p) (n / 10) "") as s eqn:Es.
      unfold valor_decimal in *.
      rewrite todos_digitos_app, Ht, valor_acc_app, Hv.
      cbn [todos_digitos valor_acc andb].
      rewrite (es_digito_digito _ Hd), (N_of_digito _ Hd).
      split; [reflexivity|]. split; [clear - Hdiv; generalize dependent (n / 10)%N;
                                     generalize (n mod 10)%N; intros; lia|].
      rewrite (primero_app _ _ Hne).
      intros E. elim Hq. exact (Hp E).
Qed.

Lemma decimal_correcto (n : N) :
  todos_digitos (decimal n) = true
  /\ valor_decimal (decimal n) = n
  /\ (primero (decimal n) = Some "0"%char -> n = 0%N)
  /\ decimal n <> "".
Proof.
  unfold decimal.
  assert (n < 2 ^ N.of_nat (S (N.to_nat (N.log2 n))))%N as H.
  { replace (N.of_nat (S (N.to_nat (N.log2 n)))) with (N.succ (N.log2 n)) by lia.
    destruct (N.eq_dec n 0) as [->|Hn]; [reflexivity|].
    apply N.log2_spec. lia. }
  destruct (decimal_aux_correcto _ n H) as [H1 [H2 H3]].
  repeat split; auto. apply decimal_aux_no_vacio.
Qed.

Lemma solo_digitos_decimal (n : N) : solo_digitos (decimal n) = true.
Proof.
  destruct (decimal_correcto n) as [H [_ [_ Hne]]].
  unfold solo_digitos. destruct (decimal n); [congruence|exact H].
Qed.

Lemma todos_digitos_ceros (k : nat) : todos_digitos (repetir "0" k) = true.
Proof. induction k; simpl; auto. Qed.

Lemma valor_acc_ceros (k : nat) (s : string) :
  valor_acc (repetir "0" k ++ s) 0 = valor_acc s 0.
Proof. induction k; simpl; auto. Qed.

Lemma length_repetir (a : ascii) (k : nat) : String.length (repetir a k) = k.
Proof. induction k; simpl; auto. Qed.

Lemma length_append (s t : string) :
  String.length (s ++ t) = (String.length s + String.length t)%nat.
Proof. induction s; simpl; auto. Qed.

Lemma toString_id (n : N) : toString (VNum (Z.of_N n)) = Ok (decimal n).
Proof.
  unfold toString, ToString, numero_a_cadena.
  destruct (Z.ltb_spec (Z.of_N n) 0); [lia|].
  rewrite N2Z.id. reflexivity.
Qed.

Lemma padStart_decimal (n : N) :
  padStart (decimal n) 3 "0"
  = repetir "0" (3 - String.length (decimal n)) ++ decimal n.
Proof.
  unfold padStart.
  rewrite (longitud_digitos _ (proj1 (decimal_correcto n))). reflexivity.
Qed.

End Codigos.

Section CodigosSinteticos.

Import ControladorMantenedores.

Example codigo_PROV007 : codigo_sintetico "PROV" (VNum 7) = Ok "PROV007".
Proof. reflexivity. Qed.

Example codigo_PROV1234 : codigo_sintetico "PROV" (VNum 1234) = Ok "PROV1234".
Proof. reflexivity. Qed.

Example codigo_UB007 : codigo_sintetico "UB" (VNum 7) = Ok "UB007".
Proof. reflexivity. Qed.

Example codigo_UB100 : codigo_sintetico "UB" (VNum 100) = Ok "UB100".
Proof. reflexivity. Qed.

Lemma prefix_cero (n : N) : String.prefix "0" (decimal n) = (n =? 0)%N.
Proof.
  destruct (decimal_correcto n) as [_ [_ [Hp Hne]]].
  destruct (N.eqb_spec n 0) as [->|Hn]; [reflexivity|].
  destruct (decimal n) as [|a r]; [congruence|].
  change (String.prefix "0" (String a r))
    with (if Ascii.ascii_dec "0" a then String.prefix "" r else false).
  destruct (Ascii.ascii_dec "0" a) as [E|E]; [|reflexivity].
  subst a. elim Hn. apply Hp. reflexivity.
Qed.

Lemma mapear_Forall2 {A B : Type} (f : A -> resultado B) (xs : list A)
    (ys : list B) :
  mapear f xs = Ok ys -> Forall2 (fun x y => f x = Ok y) xs ys.
Proof.
  revert ys. induction xs as [|x xs IH]; intros ys; simpl.
  - intros H. injection H as <-. constructor.
  - destruct (f x) as [y|e] eqn:E; [|discriminate].
    destruct (mapear f xs) as [zs|e]; [|discriminate].
    intros H. injection H as <-. constructor; [exact E|apply IH; reflexivity].
Qed.

(** C8.  For every id [n], the supplier code is "PROV" and the location code
    is "UB", each followed by as many zeros as the decimal numeral of [n]
    lacks to reach three digits, then by that numeral: a string of digits
    that denotes [n] and starts with a zero only for [n = 0].  So what
    follows the prefix has three characters at least, nothing of the numeral
    is cut, and it still denotes [n]; the code of a formatted supplier or
    location row is that of its id.  The suppliers listing and the
    locations listing answer with the rows their query saw, each formatted
    so, element by element (with the error envelope when the query is
    rejected or a row cannot be formatted). *)
Theorem codigo_sintetico_relleno (P : Plataforma) (req : Req) (w : Mundo)
    (n : N) (resto : fila) :
  let d := decimal n in
  let relleno := repetir "0" (3 - String.length d) in
  let activo := por_defecto (prop "activo" (query req)) (VBool true) in
  let c1 := mkConsulta proveedores findMany
              [("activo", igual (VBool (es_activo activo)))]
              (Some ["id"; "title"; "activo"]) [("title", asc)] in
  let c2 := mkConsulta ubicacion findMany
              [("activo", igual (VBool (es_activo activo)))]
              (Some ["id"; "title"; "bodega_deposito"; "planta"; "activo"])
              [("planta", asc); ("bodega_deposito", asc); ("title", asc)] in
  codigo_sintetico "PROV" (VNum (Z.of_N n)) = Ok ("PROV" ++ relleno ++ d)
  /\ codigo_sintetico "UB" (VNum (Z.of_N n)) = Ok ("UB" ++ relleno ++ d)
  /\ solo_digitos d = true
  /\ valor_decimal d = n
  /\ String.prefix "0" d = (n =? 0)%N
  /\ (3 <= String.length (relleno ++ d))%nat
  /\ String.length (relleno ++ d) = Nat.max 3 (String.length d)
  /\ valor_decimal (relleno ++ d) = n
  /\ (exists o, formatear_proveedor (("id", VNum (Z.of_N n)) :: resto) = Ok (VObj o)
                /\ prop "codigo" o = VStr ("PROV" ++ relleno ++ d))
  /\ (exists o, formatear_ubicacion (("id", VNum (Z.of_N n)) :: resto) = Ok (VObj o)
                /\ prop "codigo" o = VStr ("UB" ++ relleno ++ d))
  /\ (forall proveedor : fila,
         prop "id" proveedor = VNum (Z.of_N n) ->
         formatear_proveedor proveedor
         = Ok (VObj [("id", VNum (Z.of_N n));
                     ("codigo", VStr ("PROV" ++ relleno ++ d));
                     ("nombre", prop "title" proveedor);
                     ("rut", VNull);
                     ("contacto", VNull);
                     ("telefono", VNull);
                     ("email", VNull);
                     ("activo", prop "activo" proveedor)]))
  /\ (forall ubicacion : fila,
         prop "id" ubicacion = VNum (Z.of_N n) ->
         formatear_ubicacion ubicacion
         = Ok (VObj [("id", VNum (Z.of_N n));
                     ("codigo", VStr ("UB" ++ relleno ++ d));
                     ("nombre", prop "title" ubicacion);
                     ("bodega", prop "bodega_deposito" ubicacion);
                     ("planta", prop "planta" ubicacion);
                     ("tipo", VStr "bodega");
                     ("activo", prop "activo" ubicacion)]))
  /\ res (fst (obtenerProveedores P req w))
     = (if falla w (List.length (traza w)) c1
        then ManejadorRespuestas.error (res w)
               (VStr "Error al obtener proveedores")
               (Some "ERROR_OBTENER_PROVEEDORES") None
        else match mapear formatear_proveedor (filas_de P (tablas w) c1) with
             | Ok proveedoresFormateados =>
                 ManejadorRespuestas.exito (res w)
                   (VArr proveedoresFormateados)
                   (Some "Proveedores obtenidos exitosamente") None
             | Lanza _ =>
                 ManejadorRespuestas.error (res w)
                   (VStr "Error al obtener proveedores")
                   (Some "ERROR_OBTENER_PROVEEDORES") None
             end)
  /\ res (fst (obtenerUbicaciones P req w))
     = (if falla w (List.length (traza w)) c2
        then ManejadorRespuestas.error (res w)
               (VStr "Error al obtener ubicaciones")
               (Some "ERROR_OBTENER_UBICACIONES") None
        else match mapear formatear_ubicacion (filas_de P (tablas w) c2) with
             | Ok ubicacionesFormateadas =>
                 ManejadorRespuestas.exito (res w)
                   (VArr ubicacionesFormateadas)
                   (Some "Ubicaciones obtenidas exitosamente") None
             | Lanza _ =>
                 ManejadorRespuestas.error (res w)
                   (VStr "Error al obtener ubicaciones")
                   (Some "ERROR_OBTENER_UBICACIONES") None
             end)
  /\ (forall filas formateadas,
         mapear formatear_proveedor filas = Ok formateadas ->
         Forall2 (fun f x => formatear_proveedor f = Ok x) filas formateadas)
  /\ (forall filas formateadas,
         mapear formatear_ubicacion filas = Ok formateadas ->
         Forall2 (fun f x => formatear_ubicacion f = Ok x) filas formateadas).
Proof.
  intros d relleno activo c1 c2.
  assert (forall pre, codigo_sintetico pre (VNum (Z.of_N n)) = Ok (pre ++ relleno ++ d))
    as Hc.
  { intros pre. unfold codigo_sintetico. rewrite toString_id, padStart_decimal.
    reflexivity. }
  destruct (decimal_correcto n) as [_ [Hv _]].
  assert (String.length (relleno ++ d) = Nat.max 3 (String.length d)) as Hl.
  { rewrite length_append. unfold relleno. rewrite length_repetir. lia. }
  repeat match goal with |- _ /\ _ => split end.
  - apply Hc.
  - apply Hc.
  - apply solo_digitos_decimal.
  - exact Hv.
  - apply prefix_cero.
  - rewrite Hl. lia.
  - exact Hl.
  - unfold valor_decimal, relleno. rewrite valor_acc_ceros. exact Hv.
  - unfold formatear_proveedor.
    change (prop "id" (("id", VNum (Z.of_N n)) :: resto)) with (VNum (Z.of_N n)).
    rewrite Hc. eexists. split; reflexivity.
  - unfold formatear_ubicacion.
    change (prop "id" (("id", VNum (Z.of_N n)) :: resto)) with (VNum (Z.of_N n)).
    rewrite Hc. eexists. split; reflexivity.
  - intros f Hf. unfold formatear_proveedor. rewrite Hf, Hc. reflexivity.
  - intros f Hf. unfold formatear_ubicacion. rewrite Hf, Hc. reflexivity.
  - unfold obtenerProveedores, findMany_, en_error.
    unfold intentar, bind, emitir, leer, elevar, console_error, responder.
    cbv beta zeta. fold activo. fold c1.
    destruct (falla w (List.length (traza w)) c1); [reflexivity|].
    cbn [fst snd tablas falla traza consola res].
    change (efecto P c1 (tablas w)) with (tablas w).
    destruct (mapear formatear_proveedor (filas_de P (tablas w) c1));
      reflexivity.
  - unfold obtenerUbicaciones, findMany_, en_error.
    unfold intentar, bind, emitir, leer, elevar, console_error, responder.
    cbv beta zeta. fold activo. fold c2.
    destruct (falla w (List.length (traza w)) c2); [reflexivity|].
    cbn [fst snd tablas falla traza consola res].
    change (efecto P c2 (tablas w)) with (tablas w).
    destruct (mapear formatear_ubicacion (filas_de P (tablas w) c2));
      reflexivity.
  - intros filas formateadas. apply mapear_Forall2.
  - intros filas formateadas. apply mapear_Forall2.
Qed.

End CodigosSinteticos.

(** ** Handlers only read *)

Section Lecturas.

Import ControladorMantenedores.

Lemma lectura_ret {A : Type} (a : A) : lectura (ret a).
Proof.
  intros w. simpl. repeat split. exists []. rewrite app_nil_r. auto.
Qed.

Lemma lectura_elevar {A : Type} (r : resultado A) : lectura (elevar r).
Proof.
  intros w. simpl. repeat split. exists []. rewrite app_nil_r. auto.
Qed.

Lemma lectura_leer {A : Type} (f : tablas_t -> A) : lectura (leer f).
Proof.
  intros w. simpl. repeat split. exists []. rewrite app_nil_r. auto.
Qed.

Lemma lectura_responder (f : Res -> Res) : lectura (responder f).
Proof.
  intros w. simpl. repeat split. exists []. rewrite app_nil_r. auto.
Qed.

Lemma lectura_console_error (msg : string) (e : excepcion) :
  lectura (console_error msg e).
Proof.
  intros w. simpl. repeat split. exists []. rewrite app_nil_r. auto.
Qed.

Lemma lectura_emitir (P : Plataforma) (c : consulta) :
  solo_lectura (op c) = true -> lectura (emitir P c).
Proof.
  intros Hc w. unfold emitir.
  destruct (falla w (List.length (traza w)) c); simpl.
  - repeat split. exists [c]. simpl. rewrite Hc. auto.
  - split.
    + unfold efecto. destruct (op c); try discriminate; reflexivity.
    + split; [reflexivity|]. exists [c]. simpl. rewrite Hc. auto.
Qed.

Lemma lectura_bind {A B : Type} (m : M A) (k : A -> M B) :
  lectura m -> (forall a, lectura (k a)) -> lectura (bind m k).
Proof.
  intros Hm Hk w. unfold bind.
  destruct (Hm w) as [Ht [Hf [cs [Hc Hs]]]].
  destruct (m w) as [w1 [a|e]]; simpl in *.
  - destruct (Hk a w1) as [Ht2 [Hf2 [cs2 [Hc2 Hs2]]]].
    split; [congruence|]. split; [congruence|].
    exists (cs ++ cs2)%list. rewrite Hc2, Hc, app_assoc, forallb_app, Hs, Hs2.
    auto.
  - split; [exact Ht|]. split; [exact Hf|]. exists cs. auto.
Qed.

Lemma lectura_intentar {A : Type} (body : M A) (h : excepcion -> M A) :
  lectura body -> (forall e, lectura (h e)) -> lectura (intentar body h).
Proof.
  intros Hm Hk w. unfold intentar.
  destruct (Hm w) as [Ht [Hf [cs [Hc Hs]]]].
  destruct (body w) as [w1 [a|e]]; simpl in *.
  - split; [exact Ht|]. split; [exact Hf|]. exists cs. auto.
  - destruct (Hk e w1) as [Ht2 [Hf2 [cs2 [Hc2 Hs2]]]].
    split; [congruence|]. split; [congruence|].
    exists (cs ++ cs2)%list. rewrite Hc2, Hc, app_assoc, forallb_app, Hs, Hs2.
    auto.
Qed.

Lemma lectura_asentar {A : Type} (p : M A) : lectura p -> lectura (asentar p).
Proof.
  intros Hp w. unfold asentar. specialize (Hp w).
  destruct (p w) as [w1 r]. exact Hp.
Qed.

Lemma lectura_lanzar {A : Type} (e : excepcion) : lectura (@lanzar A e).
Proof.
  intros w. simpl. repeat split. exists []. rewrite app_nil_r. auto.
Qed.

Lemma lectura_Promise_all5 {A B C D E : Type}
    (pa : M A) (pb : M B) (pc : M C) (pd : M D) (pe : M E) :
  lectura pa -> lectura pb -> lectura pc -> lectura pd -> lectura pe ->
  lectura (Promise_all5 pa pb pc pd pe).
Proof.
  intros Ha Hb Hc Hd He. unfold Promise_all5.
  repeat (apply lectura_bind; [apply lectura_asentar; assumption|intros ?]).
  repeat match goal with
         | |- lectura (match ?r with _ => _ end) => destruct r
         end; first [apply lectura_ret | apply lectura_lanzar].
Qed.

Lemma lectura_findMany (P : Plataforma) m w s o : lectura (findMany_ P m w s o).
Proof.
  apply lectura_bind; [apply lectura_emitir; reflexivity|].
  intros _. apply lectura_leer.
Qed.

Lemma lectura_findFirst (P : Plataforma) m w s : lectura (findFirst_ P m w s).
Proof.
  apply lectura_bind; [apply lectura_emitir; reflexivity|].
  intros _. apply lectura_leer.
Qed.

Lemma lectura_count (P : Plataforma) m w : lectura (count_ P m w).
Proof.
  apply lectura_bind; [apply lectura_emitir; reflexivity|].
  intros _. apply lectura_leer.
Qed.

Lemma lectura_en_error (l m c : string) (e : excepcion) :
  lectura (en_error l m c e).
Proof.
  apply lectura_bind; [apply lectura_console_error|].
  intros _. apply lectura_responder.
Qed.

Ltac lectura_paso :=
  first
    [ apply lectura_intentar
    | apply lectura_en_error
    | apply lectura_Promise_all5
    | apply lectura_findMany
    | apply lectura_findFirst
    | apply lectura_count
    | apply lectura_bind
    | apply lectura_responder
    | apply lectura_elevar
    | apply lectura_ret
    | match goal with
      | |- lectura (match ?x with _ => _ end) => destruct x
      | |- forall _, _ => intro
      end ].

(** A writing operation does change the tables: the frame property below is
    a property of the handlers, not of the store. *)
Example create_escribe :
  efecto Referencia.plataforma
    (mkConsulta temporadas_app (create [("id", VNum 2)]) [] None [])
    Referencia.tablas_ejemplo temporadas_app
  <> Referencia.tablas_ejemplo temporadas_app.
Proof. cbv. discriminate. Qed.

(** C9.  Each of the twelve handlers, on every request and in every world,
    leaves the tables of the data store as they were, and every query it
    issues is a [findMany], a [findFirst] or a [count]. *)
Theorem manejadores_solo_leen (CONSTANTES : Constantes) (P : Plataforma) :
  Forall
    (fun h : Req -> M unit =>
       forall (req : Req) (w : Mundo),
         tablas (fst (h req w)) = tablas w
         /\ exists cs : list consulta,
              traza (fst (h req w)) = (traza w ++ cs)%list
              /\ forallb (fun c => solo_lectura (op c)) cs = true)
    (manejadores CONSTANTES P).
Proof.
  assert (forall h : Req -> M unit,
             (forall req, lectura (h req)) ->
             forall (req : Req) (w : Mundo),
               tablas (fst (h req w)) = tablas w
               /\ exists cs : list consulta,
                    traza (fst (h req w)) = (traza w ++ cs)%list
                    /\ forallb (fun c => solo_lectura (op c)) cs = true) as H.
  { intros h Hh req w. destruct (Hh req w) as [Ht [_ Hc]]. auto. }
  unfold manejadores.
  repeat (apply Forall_cons || apply Forall_nil);
    apply H; intros req;
    unfold obtenerPlantas, obtenerMateriales, obtenerMaterialPorCodigo,
      obtenerProveedores, obtenerProveedorPorCodigo, obtenerUbicaciones,
      obtenerUbicacionesPorPlanta, obtenerTemporadas, obtenerTemporadaActiva,
      obtenerTiposMovimiento, obtenerUnidadesMedida, obtenerResumenMantenedores;
    cbv zeta; repeat lectura_paso.
Qed.

End Lecturas.

(** ** The [activo] filter of the listings *)

Section Listados.

Import ControladorMantenedores.


(** A handler made of one [findMany] and a continuation that issues no
    query has issued exactly that query when it ends, whether the query was
    rejected or not and whether the continuation threw or not. *)
Lemma traza_listado (P : Plataforma) (m : modelo) (wh : list (string * filtro))
    (s : option (list string)) (o : list (string * direccion))
    (k : list fila -> M unit) (l ms c : string) (w : Mundo) :
  (forall fs w', traza (fst (k fs w')) = traza w') ->
  traza (fst (intentar (bind (findMany_ P m wh s o) k) (en_error l ms c) w))
  = (traza w ++ [mkConsulta m findMany wh s o])%list.
Proof.
  intros Hk. unfold findMany_, en_error.
  unfold intentar, bind, emitir, leer, console_error, responder.
  cbv beta zeta.
  destruct (falla w (List.length (traza w)) (mkConsulta m findMany wh s o));
    [reflexivity|].
  cbn [fst snd tablas falla traza consola res].
  match goal with
  | |- context [k ?fs ?w'] =>
      specialize (Hk fs w'); destruct (k fs w') as [w2 [[]|e]]
  end; simpl in *; exact Hk.
Qed.

Lemma traza_responder (f : Res -> Res) (w : Mundo) :
  traza (fst (responder f w)) = traza w.
Proof. reflexivity. Qed.

Lemma traza_elevar_responder {A : Type} (r : resultado A)
    (f : A -> Res -> Res) (w : Mundo) :
  traza (fst (bind (elevar r) (fun x => responder (f x)) w)) = traza w.
Proof. destruct r; reflexivity. Qed.



Example listado_inactivos :
  map codigoHTTP
    (enviadas (res (fst (obtenerMateriales Referencia.plataforma
                           (mkReq [] [("activo", VStr "false")])
                           Referencia.mundo))))
  = [200]
  /\ traza (fst (obtenerMateriales Referencia.plataforma
                   (mkReq [] [("activo", VStr "false")]) Referencia.mundo))
     = [mkConsulta materiales findMany [("activo", igual (VBool false))]
          (Some ["id"; "codigo_ranco"; "nombre_material"; "unidad_medida";
                 "frio"; "activo"])
          [("nombre_material", asc)]].
Proof. split; reflexivity. Qed.

End Listados.

(** ** Required route parameters *)

Section Parametros.

Import ControladorMantenedores.

(** C5, as the specification words it, at one input: with no [codigo] the
    supplier lookup does not answer with the code "VALIDATION_FAILED". *)
Lemma sin_codigo_no_VALIDATION_FAILED :
  ~ exists body : objeto,
      enviadas (res (fst (obtenerProveedorPorCodigo Referencia.plataforma
                            (mkReq [] []) Referencia.mundo)))
      = [mkRespuesta 400 (VObj body)]
      /\ prop "codigo" body = VStr "VALIDATION_FAILED".
Proof.
  intros [body [H1 H2]]. cbv in H1. injection H1 as <-. cbv in H2. discriminate.
Qed.

(** C5, amended.  When the route parameter [codigo] is missing (or empty)
    the supplier lookup, and when [planta] is missing (or empty) the
    locations-by-plant handler, writes one response, of status 400 and code
    "VALIDACION_FALLIDA", and issues no query: the trace, the tables and the
    console are as they were. *)
Theorem parametro_requerido (P : Plataforma) (req1 req2 : Req) (w : Mundo) :
  presente (param "codigo" (params req1)) = None ->
  presente (param "planta" (params req2)) = None ->
  let w1 := fst (obtenerProveedorPorCodigo P req1 w) in
  let w2 := fst (obtenerUbicacionesPorPlanta P req2 w) in
  enviadas (res w1)
  = (enviadas (res w)
     ++ [sobre_validacion "Código de proveedor requerido"
           "Datos de entrada inválidos" "VALIDACION_FALLIDA"])%list
  /\ traza w1 = traza w /\ tablas w1 = tablas w /\ consola w1 = consola w
  /\ enviadas (res w2)
     = (enviadas (res w)
        ++ [sobre_validacion "Planta requerida"
              "Datos de entrada inválidos" "VALIDACION_FALLIDA"])%list
  /\ traza w2 = traza w /\ tablas w2 = tablas w /\ consola w2 = consola w.
Proof.
  intros H1 H2.
  unfold obtenerProveedorPorCodigo, obtenerUbicacionesPorPlanta, intentar.
  cbv zeta. rewrite H1, H2. cbn. repeat split.
Qed.

Lemma parametro_requerido_ejemplo :
  presente (param "codigo" []) = None
  /\ presente (param "planta" [("planta", "")]) = None
  /\ enviadas (res (fst (obtenerProveedorPorCodigo Referencia.plataforma
                           (mkReq [] []) Referencia.mundo)))
     = [sobre_validacion "Código de proveedor requerido"
          "Datos de entrada inválidos" "VALIDACION_FALLIDA"]
  /\ traza (fst (obtenerUbicacionesPorPlanta Referencia.plataforma
                   (mkReq [("planta", "")] []) Referencia.mundo)) = [].
Proof.
  pose proof (parametro_requerido Referencia.plataforma
                (mkReq [] []) (mkReq [("planta", "")] []) Referencia.mundo
                eq_refl eq_refl) as H.
  cbv zeta in H.
  destruct H as [H1 [_ [_ [_ [_ [H2 _]]]]]].
  split; [reflexivity|]. split; [reflexivity|].
  split; [exact H1|exact H2].
Defined.

End Parametros.

(** ** Materials: the cold-storage flag *)

Section Materiales.

Import ControladorMantenedores.

Example requiere_frio_null :
  prop "requiere_frio" (campos (formatear_material [("id", VNum 1); ("frio", VNull)]))
  = VBool false.
Proof. reflexivity. Qed.

Example requiere_frio_ausente :
  prop "requiere_frio" (campos (formatear_material [("id", VNum 1)])) = VBool false.
Proof. reflexivity. Qed.

Example requiere_frio_si_minuscula :
  prop "requiere_frio" (campos (formatear_material [("frio", VStr "si")]))
  = VBool false.
Proof. reflexivity. Qed.

Lemma igual_estricto_cadena (v : valor) (s : string) :
  igual_estricto v (VStr s) = true <-> v = VStr s.
Proof.
  destruct v; simpl; try (split; [discriminate|congruence]).
  rewrite String.eqb_eq. split; congruence.
Qed.

(** C7.  The [requiere_frio] of a formatted material is a boolean, [true]
    exactly when the row's [frio] is the string "Si" or the string "Sí";
    and the materials listing answers with the rows its query saw, each
    formatted so, as the lookup by code does with the first row its query
    saw (both answer with the error envelope when their query is
    rejected, the lookup with the not-found one when it saw no row). *)
Theorem requiere_frio_exacto (P : Plataforma) (req : Req) (w : Mundo)
    (material : fila) :
  let seleccion :=
    Some ["id"; "codigo_ranco"; "nombre_material"; "unidad_medida"; "frio";
          "activo"] in
  let activo := por_defecto (prop "activo" (query req)) (VBool true) in
  let codigo := param_valor (param "codigo" (params req)) in
  let c1 := mkConsulta materiales findMany
              [("activo", igual (VBool (es_activo activo)))] seleccion
              [("nombre_material", asc)] in
  let c2 := mkConsulta materiales findFirst
              [("codigo_ranco", igual codigo); ("activo", igual (VBool true))]
              seleccion [] in
  (exists b : bool,
      prop "requiere_frio" (campos (formatear_material material)) = VBool b
      /\ (b = true <-> prop "frio" material = VStr "Si"
                       \/ prop "frio" material = VStr "Sí"))
  /\ res (fst (obtenerMateriales P req w))
     = (if falla w (List.length (traza w)) c1
        then ManejadorRespuestas.error (res w)
               (VStr "Error al obtener materiales")
               (Some "ERROR_OBTENER_MATERIALES") None
        else ManejadorRespuestas.exito (res w)
               (VArr (map formatear_material (filas_de P (tablas w) c1)))
               (Some "Materiales obtenidos exitosamente") None)
  /\ res (fst (obtenerMaterialPorCodigo P req w))
     = (if falla w (List.length (traza w)) c2
        then ManejadorRespuestas.error (res w)
               (VStr "Error al obtener material")
               (Some "ERROR_OBTENER_MATERIAL") None
        else match hd_error (filas_de P (tablas w) c2) with
             | Some m =>
                 ManejadorRespuestas.exito (res w) (formatear_material m)
                   (Some "Material obtenido exitosamente") None
             | None =>
                 ManejadorRespuestas.noEncontrado (res w)
                   (Some ("Material con código " ++ ToString codigo
                          ++ " no encontrado"))
             end).
Proof.
  intros seleccion activo codigo c1 c2. split; [|split].
  - eexists. split; [reflexivity|].
    rewrite orb_true_iff, !igual_estricto_cadena. reflexivity.
  - unfold obtenerMateriales, findMany_, en_error.
    unfold intentar, bind, emitir, leer, console_error, responder.
    cbv beta zeta. fold activo. fold seleccion. fold c1.
    destruct (falla w (List.length (traza w)) c1); reflexivity.
  - unfold obtenerMaterialPorCodigo, findFirst_, en_error.
    unfold intentar, bind, emitir, leer, console_error, responder.
    cbv beta zeta. fold codigo. fold seleccion. fold c2.
    destruct (falla w (List.length (traza w)) c2); [reflexivity|].
    cbn [fst snd tablas falla traza consola res].
    change (efecto P c2 (tablas w)) with (tablas w).
    destruct (hd_error (filas_de P (tablas w) c2)); reflexivity.
Qed.

End Materiales.

(** ** The summary and the active season *)

Section Resumen.

Import ControladorMantenedores.

Variable CONSTANTES : Constantes.
Variable P : Plataforma.

Lemma cumple_igual_true (k : string) (f : fila) :
  cumple P [(k, igual (VBool true))] f
  = igual_estricto (prop k f) (VBool true).
Proof. unfold cumple. simpl. apply andb_true_r. Qed.

(** What a query with one condition [{ k: true }], no selection and no
    order sees. *)
Lemma filas_de_simple (t : tablas_t) (m : modelo) (o : operacion) (k : string) :
  filas_de P t (mkConsulta m o [(k, igual (VBool true))] None [])
  = filter (fun f => igual_estricto (prop k f) (VBool true)) (t m).
Proof.
  unfold filas_de. cbn [where_ sobre orderBy select_ proyectar].
  rewrite map_id. apply filter_ext. intros f. apply cumple_igual_true.
Qed.

Lemma hd_error_filter {A : Type} (f : A -> bool) (l : list A) :
  hd_error (filter f l) = find f l.
Proof.
  induction l as [|a l IH]; simpl; [reflexivity|].
  destruct (f a); [reflexivity|exact IH].
Qed.

Lemma prop_proyectar (k : string) (ks : list string) (f : fila) :
  existsb (String.eqb k) ks = true ->
  prop k (proyectar (Some ks) f) = prop k f.
Proof.
  intros Hk. unfold proyectar.
  induction f as [|[k' v] f IH]; simpl; [reflexivity|].
  destruct (String.eqb_spec k k') as [<-|Hne].
  - rewrite Hk. simpl. rewrite String.eqb_refl. reflexivity.
  - destruct (existsb (String.eqb k') ks); simpl; [|exact IH].
    destruct (String.eqb_spec k k'); [congruence|exact IH].
Qed.

Lemma bind_def {A B : Type} (m : M A) (k : A -> M B) (w : Mundo) :
  bind m k w
  = match m w with
    | (w', Ok a) => k a w'
    | (w', Lanza e) => (w', Lanza e)
    end.
Proof. reflexivity. Qed.

(** One reading query of a [Promise.all]: it is recorded, the world is
    otherwise as it was, and its outcome is handed on. *)
Lemma paso_consulta {A B : Type} (c : consulta) (f : tablas_t -> A)
    (k : resultado A -> M B) (w : Mundo) :
  solo_lectura (op c) = true ->
  bind (asentar (bind (emitir P c) (fun _ => leer f))) k w
  = k (if falla w (List.length (traza w)) c
       then Lanza (ErrorConsulta (List.length (traza w)))
       else Ok (f (tablas w)))
      (mkMundo (tablas w) (falla w) (traza w ++ [c]) (consola w) (res w)).
Proof.
  intros Hc. unfold bind, asentar, emitir, leer.
  destruct (falla w (List.length (traza w)) c); [reflexivity|].
  unfold efecto. destruct (op c); try discriminate; reflexivity.
Qed.

(** The summary handler, whole: the five queries are issued, nothing is
    written to the tables, and the response is the error envelope when one
    of the five is rejected, the summary otherwise. *)
Lemma obtenerResumenMantenedores_completo (req : Req) (w : Mundo) :
  let w' := fst (obtenerResumenMantenedores CONSTANTES P req w) in
  traza w' = (traza w ++ consultas_resumen)%list
  /\ tablas w' = tablas w
  /\ res w'
     = (if alguna_falla (falla w) (List.length (traza w)) consultas_resumen
        then ManejadorRespuestas.error (res w)
               (VStr "Error al obtener resumen de mantenedores")
               (Some "ERROR_OBTENER_RESUMEN_MANTENEDORES") None
        else ManejadorRespuestas.exito (res w)
               (resumen_de CONSTANTES (tablas w))
               (Some "Resumen de mantenedores obtenido exitosamente") None).
Proof.
  unfold obtenerResumenMantenedores, intentar. rewrite bind_def.
  unfold Promise_all5, count_, findFirst_.
  do 5 (rewrite paso_consulta by reflexivity;
        cbv beta; cbn [tablas falla traza consola res]).
  rewrite !length_app. cbn [List.length]. rewrite !Nat.add_1_r.
  rewrite !filas_de_simple, hd_error_filter, <- !app_assoc.
  unfold consultas_resumen, alguna_falla.
  set (n := List.length (traza w)).
  repeat match goal with
         | |- context [falla w ?i ?c] =>
             let b := fresh "b" in
             set (b := falla w i c) in *; clearbody b
         end.
  repeat match goal with
         | b : bool |- _ => destruct b
         end; repeat split.
Qed.

(** C4.  When one of the five queries of the summary is rejected, the
    handler writes exactly one response, of status 500 and code
    "ERROR_OBTENER_RESUMEN_MANTENEDORES", which carries no summary. *)
Theorem resumen_falla_entero (req : Req) (w : Mundo) :
  alguna_falla (falla w) (List.length (traza w)) consultas_resumen = true ->
  let w' := fst (obtenerResumenMantenedores CONSTANTES P req w) in
  enviadas (res w')
  = (enviadas (res w)
     ++ [sobre_error 500 "Error al obtener resumen de mantenedores"
           "ERROR_OBTENER_RESUMEN_MANTENEDORES"])%list
  /\ prop "datos" (campos (cuerpo (last (enviadas (res w')) (mkRespuesta 0 VNull))))
     = VUndefined
  /\ tablas w' = tablas w.
Proof.
  intros H w'.
  destruct (obtenerResumenMantenedores_completo req w) as [_ [Ht Hr]].
  fold w' in Ht, Hr. rewrite H in Hr. rewrite Hr.
  split; [reflexivity|]. split; [|exact Ht].
  unfold ManejadorRespuestas.error. rewrite enviadas_json, last_last.
  reflexivity.
Qed.

Lemma find_extensional {A : Type} (f g : A -> bool) (l : list A) :
  (forall a, f a = g a) -> find f l = find g l.
Proof.
  intros H. induction l as [|a l IH]; simpl; [reflexivity|].
  rewrite H, IH. reflexivity.
Qed.

(** There is no first row whose field [k] is [true] exactly when no row of
    the table has its field [k] equal to [true]. *)
Lemma primera_con_ninguna (k : string) (filas : list fila) :
  primera_con k filas = None
  <-> (forall f, In f filas -> prop k f <> VBool true).
Proof.
  unfold primera_con. split.
  - intros H f Hf E.
    pose proof (find_none _ _ H f Hf) as Hn. cbv beta in Hn.
    rewrite E in Hn. discriminate.
  - intros H.
    destruct (find (fun t => igual_estricto (prop k t) (VBool true)) filas)
      as [f|] eqn:E; [|reflexivity].
    apply find_some in E. destruct E as [Hf Hp].
    elim (H f Hf). destruct (prop k f) as [| |[]| | | |]; try discriminate.
    reflexivity.
Qed.

Lemma hd_error_map {A B : Type} (g : A -> B) (l : list A) :
  hd_error (map g l) = option_map g (hd_error l).
Proof. destruct l; reflexivity. Qed.

Lemma formatear_temporada_proyectar (f : fila) :
  formatear_temporada
    (proyectar (Some ["id"; "title"; "fecha_inicio"; "fecha_fin"; "activo"]) f)
  = formatear_temporada f.
Proof.
  unfold formatear_temporada.
  rewrite !prop_proyectar by reflexivity. reflexivity.
Qed.

(** C10, amended.  When none of its five queries is rejected, the summary
    is written with status 200 and its [temporadaActiva] is the [nombre]
    property of the first row of [temporadas_app] whose [activa] is
    [true], whatever that property is, and [null] when no row has [activa]
    equal to [true]: so it is [null] exactly when there is no such row or
    the [nombre] of the first such row is itself [null].  The fourth query
    issued is the [findFirst] with [{ activa: true }].  The active-season
    handler, when its query is not rejected, issues a [findFirst] with
    [{ activo: true }] and answers with the first row whose [activo] is
    [true], the [nombre] of the season being the row's [title]; it answers
    404 when there is no such row. *)
Theorem temporada_activa_del_resumen (req : Req) (w : Mundo) :
  let n := List.length (traza w) in
  let c := mkConsulta temporadas_app findFirst [("activo", igual (VBool true))]
             (Some ["id"; "title"; "fecha_inicio"; "fecha_fin"; "activo"]) [] in
  alguna_falla (falla w) n consultas_resumen = false ->
  falla w n c = false ->
  let w1 := fst (obtenerResumenMantenedores CONSTANTES P req w) in
  let w2 := fst (obtenerTemporadaActiva P req w) in
  res w1
  = ManejadorRespuestas.exito (res w) (resumen_de CONSTANTES (tablas w))
      (Some "Resumen de mantenedores obtenido exitosamente") None
  /\ prop "temporadaActiva" (campos (resumen_de CONSTANTES (tablas w)))
     = match primera_con "activa" (tablas w temporadas_app) with
       | Some fila => prop "nombre" fila
       | None => VNull
       end
  /\ (primera_con "activa" (tablas w temporadas_app) = None
      <-> (forall f, In f (tablas w temporadas_app) ->
                     prop "activa" f <> VBool true))
  /\ (prop "temporadaActiva" (campos (resumen_de CONSTANTES (tablas w))) = VNull
      <-> (forall f, In f (tablas w temporadas_app) ->
                     prop "activa" f <> VBool true)
          \/ exists fila,
               primera_con "activa" (tablas w temporadas_app) = Some fila
               /\ prop "nombre" fila = VNull)
  /\ nth_error (traza w1) (n + 3)
     = Some (mkConsulta temporadas_app findFirst
               [("activa", igual (VBool true))] None [])
  /\ traza w2 = (traza w ++ [c])%list
  /\ res w2
     = match primera_con "activo" (tablas w temporadas_app) with
       | Some fila =>
           ManejadorRespuestas.exito (res w) (formatear_temporada fila)
             (Some "Temporada activa obtenida exitosamente") None
       | None =>
           ManejadorRespuestas.noEncontrado (res w)
             (Some "No hay temporada activa configurada")
       end
  /\ (forall fila, prop "nombre" (campos (formatear_temporada fila))
                   = prop "title" fila).
Proof.
  intros n c H1 H2 w1 w2.
  destruct (obtenerResumenMantenedores_completo req w) as [Hz [_ Hr]].
  fold w1 in Hz, Hr. fold n in Hr. rewrite H1 in Hr.
  split; [exact Hr|]. split; [reflexivity|].
  split; [apply primera_con_ninguna|]. split.
  { rewrite <- primera_con_ninguna.
    change (prop "temporadaActiva" (campos (resumen_de CONSTANTES (tablas w))))
      with (match primera_con "activa" (tablas w temporadas_app) with
            | Some fila => prop "nombre" fila
            | None => VNull
            end).
    destruct (primera_con "activa" (tablas w temporadas_app)) as [f|].
    - split.
      + intros H. right. exists f. auto.
      + intros [H|[f' [H H']]]; [discriminate H|].
        injection H as <-. exact H'.
    - split; auto. }
  split.
  { rewrite Hz. rewrite nth_error_app2 by (unfold n; lia).
    replace (n + 3 - List.length (traza w))%nat with 3%nat by (unfold n; lia).
    reflexivity. }
  assert (hd_error (filas_de P (tablas w) c)
          = option_map (proyectar (select_ c))
              (primera_con "activo" (tablas w temporadas_app))) as Hh.
  { unfold filas_de. cbn [orderBy where_ sobre c].
    rewrite hd_error_map, hd_error_filter. unfold primera_con.
    f_equal. apply find_extensional. intros f. apply cumple_igual_true. }
  unfold w2, obtenerTemporadaActiva, findFirst_, en_error.
  unfold intentar, bind, emitir, leer, console_error, responder.
  cbv beta zeta. fold c. fold n. rewrite H2.
  cbn [fst snd tablas falla traza consola res].
  change (efecto P c (tablas w)) with (tablas w). rewrite Hh.
  destruct (primera_con "activo" (tablas w temporadas_app)) as [f|];
    cbn [option_map select_ c fst snd traza res];
    rewrite ?formatear_temporada_proyectar; repeat split.
Qed.

End Resumen.

(** ** The supplier lookup by code *)

Section ProveedorPorCodigo.

Import ControladorMantenedores.

Example parseInt_mas : parseInt "+7" = Num 7. Proof. reflexivity. Qed.
Example parseInt_menos_hex : parseInt "-0X1f" = Num (-31). Proof. reflexivity. Qed.
Example parseInt_nbsp : parseInt (String (ascii_of_N 194) (String (ascii_of_N 160) "42"))
                        = Num 42.
Proof. reflexivity. Qed.
Example parseInt_letras : parseInt "abc" = NaN. Proof. reflexivity. Qed.

(** Above [2^53] the result is the nearest double, ties to even; from
    [2^1024] on it is an infinity. *)
Example parseInt_2_53_mas_1 :
  parseInt "9007199254740993" = Num 9007199254740992.
Proof. reflexivity. Qed.

Example parseInt_2_53_mas_3 :
  parseInt "9007199254740995" = Num 9007199254740996.
Proof. reflexivity. Qed.

Example parseInt_hex_2_53_mas_1 :
  parseInt "0x20000000000001" = Num 9007199254740992.
Proof. reflexivity. Qed.

Example parseInt_infinito : parseInt (repetir "9" 400) = Infinity false.
Proof. vm_compute. reflexivity. Qed.

Example parseInt_menos_infinito :
  parseInt (String "-" (repetir "9" 400)) = Infinity true.
Proof. vm_compute. reflexivity. Qed.

Example whereClause_redondeado :
  ControladorMantenedores.whereClause "PROV9007199254740993"
  = [("id", igual (VNum 9007199254740992)); ("activo", igual (VBool true))].
Proof. reflexivity. Qed.

Example whereClause_infinito :
  ControladorMantenedores.whereClause ("PROV" ++ repetir "9" 400)
  = [("id", igual_infinito false); ("activo", igual (VBool true))].
Proof. vm_compute. reflexivity. Qed.

Lemma digito_rango (a : ascii) :
  es_digito a = true -> (48 <= N_of_ascii a <= 57)%N.
Proof.
  unfold es_digito. intros H. apply andb_prop in H. destruct H as [H1 H2].
  apply N.leb_le in H1. apply N.leb_le in H2. lia.
Qed.

Lemma digito_distinto (a c : ascii) :
  es_digito a = true -> es_digito c = false -> Ascii.eqb a c = false.
Proof.
  intros Ha Hc. destruct (Ascii.eqb_spec a c) as [->|_]; congruence.
Qed.

Lemma trimStart_digito (a : ascii) (r : string) :
  es_digito a = true -> trimStart (String a r) = String a r.
Proof.
  intros H. apply digito_rango in H.
  cbn [trimStart]. cbv zeta.
  assert ((N_of_ascii a <=? 13) = false)%N as E1 by (apply N.leb_gt; lia).
  assert ((N_of_ascii a =? 32) = false)%N as E2 by (apply N.eqb_neq; lia).
  assert ((N_of_ascii a =? 194) = false)%N as E3 by (apply N.eqb_neq; lia).
  assert ((N_of_ascii a =? 225) = false)%N as E4 by (apply N.eqb_neq; lia).
  assert ((N_of_ascii a =? 226) = false)%N as E5 by (apply N.eqb_neq; lia).
  assert ((N_of_ascii a =? 227) = false)%N as E6 by (apply N.eqb_neq; lia).
  assert ((N_of_ascii a =? 239) = false)%N as E7 by (apply N.eqb_neq; lia).
  rewrite E1, E2, andb_false_r. cbn [orb].
  destruct r as [|b r2]; [reflexivity|].
  rewrite E3. cbn [andb].
  destruct r2 as [|c r3]; [reflexivity|].
  rewrite E4, E5, E6, E7. reflexivity.
Qed.

Lemma valor_digito_decimal (a : ascii) :
  es_digito a = true -> valor_digito 10 a = Some (N_of_ascii a - 48)%N.
Proof. unfold valor_digito, es_digito. intros ->. reflexivity. Qed.

Lemma leer_digitos_todos (s : string) (x : N) :
  todos_digitos s = true ->
  leer_digitos 10 s (Some x) = Some (valor_acc s x).
Proof.
  revert x.
  induction s as [|a r IH]; cbn [leer_digitos valor_acc todos_digitos];
    intros x H; [reflexivity|].
  apply andb_prop in H. destruct H as [Ha Hr].
  rewrite (valor_digito_decimal a Ha), (IH _ Hr).
  f_equal. f_equal. lia.
Qed.

Lemma redondear_exacto (n : N) : (n < 2 ^ 53)%N -> redondear n = Some n.
Proof.
  intros H. unfold redondear.
  destruct (N.ltb_spec n (2 ^ 53)) as [_|Hge]; [reflexivity|lia].
Qed.

(** On a string of decimal digits that denote a number below [2^53],
    [parseInt] is that number. *)
Lemma parseInt_digitos (s : string) :
  solo_digitos s = true ->
  (valor_decimal s < 2 ^ 53)%N ->
  parseInt s = Num (Z.of_N (valor_decimal s)).
Proof.
  destruct s as [|a r]; [discriminate|].
  unfold solo_digitos. cbn [todos_digitos]. intros H Hb.
  apply andb_prop in H. destruct H as [Ha Hr].
  unfold parseInt. rewrite (trimStart_digito a r Ha). cbv zeta.
  rewrite (digito_distinto a "-" Ha eq_refl), (digito_distinto a "+" Ha eq_refl).
  cbn [orb].
  assert (match r with
          | String b _ => Ascii.eqb a "0" && (Ascii.eqb b "x" || Ascii.eqb b "X")
          | EmptyString => false
          end = false) as Hx.
  { destruct r as [|b r2]; [reflexivity|].
    cbn [todos_digitos] in Hr. apply andb_prop in Hr. destruct Hr as [Hb' _].
    rewrite (digito_distinto b "x" Hb' eq_refl), (digito_distinto b "X" Hb' eq_refl).
    apply andb_false_r. }
  rewrite Hx.
  cbn [leer_digitos]. rewrite (valor_digito_decimal a Ha).
  rewrite (leer_digitos_todos r _ Hr).
  assert (valor_acc r (N_of_ascii a - 48) = valor_decimal (String a r)) as Ev.
  { unfold valor_decimal. cbn [valor_acc]. f_equal; lia. }
  rewrite Ev, (redondear_exacto _ Hb), Z.mul_1_l. reflexivity.
Qed.

Lemma replace_prefijo (pat rep s : string) :
  String.prefix pat s = true ->
  replace pat rep s = rep ++ quitar (String.length pat) s.
Proof. intros H. destruct s; cbn [replace]; rewrite H; reflexivity. Qed.

(** A code made of "PROV" and decimal digits that denote a number below
    [2^53] is looked up by that number. *)
Lemma whereClause_PROV_digitos (digitos : string) :
  solo_digitos digitos = true ->
  (valor_decimal digitos < 2 ^ 53)%N ->
  whereClause ("PROV" ++ digitos)
  = [("id", igual (VNum (Z.of_N (valor_decimal digitos))));
     ("activo", igual (VBool true))].
Proof.
  intros H Hb. unfold whereClause, startsWith.
  assert (String.prefix "PROV" ("PROV" ++ digitos) = true) as Hp
    by (cbn; destruct digitos; reflexivity).
  rewrite Hp, (replace_prefijo _ "" _ Hp).
  change ("" ++ quitar (String.length "PROV") ("PROV" ++ digitos)) with digitos.
  rewrite (parseInt_digitos digitos H Hb). reflexivity.
Qed.

(** The code synthesized for the supplier of id [n], [n] below [2^53], is
    looked up by the id [n]. *)
Lemma whereClause_codigo_sintetico (n : N) :
  (n < 2 ^ 53)%N ->
  exists codigo : string,
    codigo_sintetico "PROV" (VNum (Z.of_N n)) = Ok codigo
    /\ whereClause codigo
       = [("id", igual (VNum (Z.of_N n))); ("activo", igual (VBool true))].
Proof.
  intros Hb. unfold codigo_sintetico. rewrite toString_id, padStart_decimal.
  eexists. split; [reflexivity|].
  destruct (decimal_correcto n) as [Ht [Hv [_ Hne]]].
  assert (valor_decimal (repetir "0" (3 - String.length (decimal n)) ++ decimal n)
          = n) as Hz
    by (unfold valor_decimal in *; rewrite valor_acc_ceros; exact Hv).
  rewrite whereClause_PROV_digitos.
  - rewrite Hz. reflexivity.
  - unfold solo_digitos.
    rewrite todos_digitos_app, todos_digitos_ceros, Ht.
    destruct (repetir "0" (3 - String.length (decimal n))) eqn:E1;
      destruct (decimal n) eqn:E2; try reflexivity; congruence.
  - rewrite Hz. exact Hb.
Qed.

(** A code that does not start with "PROV" is looked up by a
    case-insensitive substring match on the name. *)
Lemma whereClause_sin_PROV (codigo : string) :
  startsWith codigo "PROV" = false ->
  whereClause codigo
  = [("title", contains_insensitive codigo); ("activo", igual (VBool true))].
Proof. intros H. unfold whereClause. rewrite H. reflexivity. Qed.

Example whereClause_PROV007 :
  whereClause "PROV007"
  = [("id", igual (VNum 7)); ("activo", igual (VBool true))].
Proof. reflexivity. Qed.

Example whereClause_Acme :
  whereClause "Acme"
  = [("title", contains_insensitive "Acme"); ("activo", igual (VBool true))].
Proof. reflexivity. Qed.

Example whereClause_PROV :
  whereClause "PROV"
  = [("title", contains_insensitive "PROV"); ("activo", igual (VBool true))].
Proof. reflexivity. Qed.

(** C2, at inputs outside the pattern ["PROV" + digits]: the code
    "PROV12abc" is not of that pattern, yet it is looked up by the id 12 and
    not by a substring match on the name, so that on the reference store the
    answer is the supplier of id 12 and not the one named "PROV12abc SpA";
    likewise "PROV-7" is looked up by the id -7, "PROV 7" by the id 7 and
    "PROV0x1F" by the id 31. *)
Theorem PROV12abc_por_id :
  patron_PROV_digitos "PROV12abc" = false
  /\ whereClause "PROV12abc"
     = [("id", igual (VNum 12)); ("activo", igual (VBool true))]
  /\ whereClause "PROV12abc"
     <> [("title", contains_insensitive "PROV12abc");
         ("activo", igual (VBool true))]
  /\ traza (fst (obtenerProveedorPorCodigo Referencia.plataforma
                   (mkReq [("codigo", "PROV12abc")] []) Referencia.mundo))
     = [mkConsulta proveedores findFirst
          [("id", igual (VNum 12)); ("activo", igual (VBool true))]
          (Some ["id"; "title"; "activo"]) []]
  /\ map (fun r => prop "nombre" (campos (prop "datos" (campos (cuerpo r)))))
       (enviadas (res (fst (obtenerProveedorPorCodigo Referencia.plataforma
                              (mkReq [("codigo", "PROV12abc")] [])
                              Referencia.mundo))))
     = [VStr "Agro Sur"]
  /\ patron_PROV_digitos "PROV-7" = false
  /\ whereClause "PROV-7"
     = [("id", igual (VNum (-7))); ("activo", igual (VBool true))]
  /\ patron_PROV_digitos "PROV 7" = false
  /\ whereClause "PROV 7"
     = [("id", igual (VNum 7)); ("activo", igual (VBool true))]
  /\ patron_PROV_digitos "PROV0x1F" = false
  /\ whereClause "PROV0x1F"
     = [("id", igual (VNum 31)); ("activo", igual (VBool true))].
Proof.
  repeat split; try reflexivity.
  cbv. discriminate.
Qed.

End ProveedorPorCodigo.

(** ** The summary on the reference store *)

Section ResumenEjemplos.

Import ControladorMantenedores Referencia.

Example resumen_referencia :
  enviadas (res (fst (obtenerResumenMantenedores constantes plataforma
                        (mkReq [] []) mundo)))
  = [mkRespuesta 200
       (VObj [("exito", VBool true);
              ("mensaje", VStr "Resumen de mantenedores obtenido exitosamente");
              ("datos",
               VObj [("materiales", VNum 2);
                     ("proveedores", VNum 3);
                     ("ubicaciones", VNum 1);
                     ("tiposMovimiento", VNum 1);
                     ("plantas", VNum 2);
                     ("unidadesMedida", VNum 3);
                     ("temporadaActiva", VStr "Temporada 24/25")]);
              ("total", VUndefined)])].
Proof. reflexivity. Qed.

(** A season row with the columns the other handlers select is not seen by
    the summary, whose filter is on [activa]. *)
Example resumen_sin_columna_activa :
  primera_con "activa"
    [[("id", VNum 1); ("title", VStr "2024-2025"); ("activo", VBool true)]]
  = None
  /\ primera_con "activo"
       [[("id", VNum 1); ("title", VStr "2024-2025"); ("activo", VBool true)]]
     = Some [("id", VNum 1); ("title", VStr "2024-2025"); ("activo", VBool true)].
Proof. split; reflexivity. Qed.

Lemma resumen_falla_entero_ejemplo :
  alguna_falla (falla mundo_falla) (List.length (traza mundo_falla))
    consultas_resumen = true
  /\ enviadas (res (fst (obtenerResumenMantenedores constantes plataforma
                           (mkReq [] []) mundo_falla)))
     = [sobre_error 500 "Error al obtener resumen de mantenedores"
          "ERROR_OBTENER_RESUMEN_MANTENEDORES"].
Proof.
  split; [reflexivity|].
  exact (proj1 (resumen_falla_entero constantes plataforma (mkReq [] [])
                  mundo_falla eq_refl)).
Defined.

Lemma temporada_activa_del_resumen_ejemplo :
  alguna_falla (falla mundo) (List.length (traza mundo)) consultas_resumen = false
  /\ falla mundo (List.length (traza mundo))
       (mkConsulta temporadas_app findFirst [("activo", igual (VBool true))]
          (Some ["id"; "title"; "fecha_inicio"; "fecha_fin"; "activo"]) [])
     = false
  /\ prop "temporadaActiva" (campos (resumen_de constantes (tablas mundo)))
     = VStr "Temporada 24/25"
  /\ res (fst (obtenerResumenMantenedores constantes plataforma
                 (mkReq [] []) mundo))
     = ManejadorRespuestas.exito (res mundo)
         (resumen_de constantes (tablas mundo))
         (Some "Resumen de mantenedores obtenido exitosamente") None.
Proof.
  split; [reflexivity|]. split; [reflexivity|]. split; [reflexivity|].
  exact (proj1 (temporada_activa_del_resumen constantes plataforma
                  (mkReq [] []) mundo eq_refl eq_refl)).
Defined.

(** C10, as the claim words it, on a store whose one season has [activa]
    [true] and [nombre] [null]: the summary is written (no query is
    rejected) and its [temporadaActiva] is [null], although a row with
    [activa] equal to [true] exists; so [null] does not mean that no such
    row exists. *)
Lemma temporada_null_con_fila :
  let r := ultima (fst (obtenerResumenMantenedores constantes plataforma
                          (mkReq [] []) mundo_sin_nombre)) in
  let t := prop "temporadaActiva" (campos (prop "datos" (campos (cuerpo r)))) in
  codigoHTTP r = 200
  /\ t = VNull
  /\ (exists f, In f (tablas mundo_sin_nombre temporadas_app)
                /\ prop "activa" f = VBool true)
  /\ ~ (t = VNull
        <-> (forall f, In f (tablas mundo_sin_nombre temporadas_app) ->
                       prop "activa" f <> VBool true)).
Proof.
  cbv zeta. split; [reflexivity|]. split; [reflexivity|]. split.
  - eexists. split; [left; reflexivity|reflexivity].
  - intros [H _]. apply (H eq_refl _ (or_introl eq_refl)). reflexivity.
Qed.

End ResumenEjemplos.

(** ** The synthetic codes on the reference store *)

Lemma codigo_sintetico_relleno_ejemplo :
  let fila := [("id", VNum 7); ("title", VStr "Acme Ltda");
               ("activo", VBool true)] in
  prop "id" fila = VNum (Z.of_N 7)
  /\ ControladorMantenedores.formatear_proveedor fila
     = Ok (VObj [("id", VNum 7);
                 ("codigo", VStr "PROV007");
                 ("nombre", VStr "Acme Ltda");
                 ("rut", VNull);
                 ("contacto", VNull);
                 ("telefono", VNull);
                 ("email", VNull);
                 ("activo", VBool true)])
  /\ map (fun d => prop "codigo" (campos d))
       (elementos
          (prop "datos"
             (campos (cuerpo (last (enviadas
                                      (res (fst (ControladorMantenedores.obtenerProveedores
                                                   Referencia.plataforma
                                                   (mkReq [] [])
                                                   Referencia.mundo))))
                                   (mkRespuesta 0 VNull))))))
     = [VStr "PROV007"; VStr "PROV012"; VStr "PROV030"].
Proof.
  intros fila.
  destruct (codigo_sintetico_relleno Referencia.plataforma (mkReq [] [])
              Referencia.mundo 7 [])
    as (_ & _ & _ & _ & _ & _ & _ & _ & _ & _ & H & _ & Hr & _).
  split; [reflexivity|]. split; [exact (H fila eq_refl)|].
  rewrite Hr. reflexivity.
Defined.

(** ** Every handler, as a whole *)

Section Manejadores.

Import ControladorMantenedores.

Lemma alguna_falla_app (f : nat -> consulta -> bool) (n : nat)
    (a b : list consulta) :
  alguna_falla f n (a ++ b)
  = alguna_falla f n a || alguna_falla f (n + List.length a) b.
Proof.
  revert n. induction a as [|c a IH]; intros n; simpl.
  - rewrite Nat.add_0_r. reflexivity.
  - rewrite IH, orb_assoc. do 2 f_equal. lia.
Qed.

Lemma tranquilo_elevar {A : Type} (r : resultado A) : tranquilo (elevar r).
Proof.
  intros w. simpl. repeat split. exists []. rewrite app_nil_r. auto.
Qed.

Lemma tranquilo_leer {A : Type} (f : tablas_t -> A) : tranquilo (leer f).
Proof.
  intros w. simpl. repeat split. exists []. rewrite app_nil_r. auto.
Qed.

Lemma tranquilo_emitir (P : Plataforma) (c : consulta) : tranquilo (emitir P c).
Proof.
  intros w. unfold emitir.
  destruct (falla w (List.length (traza w)) c) eqn:E; simpl;
    repeat split; exists [c]; (split; [reflexivity|]).
  - intros a H. discriminate.
  - intros a _. simpl. rewrite E. reflexivity.
Qed.

Lemma tranquilo_bind {A B : Type} (m : M A) (k : A -> M B) :
  tranquilo m -> (forall a, tranquilo (k a)) -> tranquilo (bind m k).
Proof.
  intros Hm Hk w. unfold bind.
  destruct (Hm w) as [Hr [Hc [Hf [cs [Ht Hs]]]]].
  destruct (m w) as [w1 [a|e]]; simpl in *.
  - destruct (Hk a w1) as [Hr2 [Hc2 [Hf2 [cs2 [Ht2 Hs2]]]]].
    split; [congruence|]. split; [congruence|]. split; [congruence|].
    exists (cs ++ cs2)%list. split; [rewrite Ht2, Ht, app_assoc; reflexivity|].
    intros b Hb. rewrite alguna_falla_app, (Hs a eq_refl). simpl.
    specialize (Hs2 b Hb). rewrite Hf, Ht, length_app in Hs2. exact Hs2.
  - repeat split; auto. exists cs. split; [exact Ht|]. intros a H. discriminate.
Qed.

Lemma tranquilo_findMany (P : Plataforma) m w s o :
  tranquilo (findMany_ P m w s o).
Proof.
  apply tranquilo_bind; [apply tranquilo_emitir|intros _; apply tranquilo_leer].
Qed.

Lemma tranquilo_findFirst (P : Plataforma) m w s :
  tranquilo (findFirst_ P m w s).
Proof.
  apply tranquilo_bind; [apply tranquilo_emitir|intros _; apply tranquilo_leer].
Qed.

Lemma cuerpo_ok_responder (f : Res -> Res) :
  (forall r0 : Res,
      exists r : Respuesta,
        enviadas (f r0) = (enviadas r0 ++ [r])%list
        /\ sobre_valido r = true
        /\ In (codigoHTTP r) [200; 400; 404]) ->
  cuerpo_ok (responder f).
Proof.
  intros H w. simpl. split; [reflexivity|]. split; [reflexivity|].
  exists []. rewrite app_nil_r. split; [reflexivity|].
  split; [reflexivity|]. apply H.
Qed.

Lemma cuerpo_ok_exito (datos : valor) (mensaje : string) :
  cuerpo_ok (responder (fun r =>
    ManejadorRespuestas.exito r datos (Some mensaje) None)).
Proof.
  apply cuerpo_ok_responder. intros r0. eexists.
  split; [apply enviadas_json|]. split; [reflexivity|]. simpl. auto.
Qed.

Lemma cuerpo_ok_noEncontrado (mensaje : string) :
  cuerpo_ok (responder (fun r =>
    ManejadorRespuestas.noEncontrado r (Some mensaje))).
Proof.
  apply cuerpo_ok_responder. intros r0. eexists.
  split; [apply enviadas_json|]. split; [reflexivity|]. simpl. auto.
Qed.

Lemma cuerpo_ok_validacionFallida (errores : valor) (mensaje : string) :
  cuerpo_ok (responder (fun r =>
    ManejadorRespuestas.validacionFallida r errores (Some mensaje))).
Proof.
  apply cuerpo_ok_responder. intros r0. eexists.
  split; [apply enviadas_json|]. split; [reflexivity|]. simpl. auto.
Qed.

Lemma cuerpo_ok_bind {A : Type} (m : M A) (k : A -> M unit) :
  tranquilo m -> (forall a, cuerpo_ok (k a)) -> cuerpo_ok (bind m k).
Proof.
  intros Hm Hk w. unfold bind.
  destruct (Hm w) as [Hr [Hc [Hf [cs [Ht Hs]]]]].
  destruct (m w) as [w1 [a|e]]; simpl in *.
  - destruct (Hk a w1) as [Hc2 [Hf2 [cs2 [Ht2 Hs2]]]].
    split; [congruence|]. split; [congruence|].
    exists (cs ++ cs2)%list. split; [rewrite Ht2, Ht, app_assoc; reflexivity|].
    destruct (snd (k a w1)).
    + destruct Hs2 as [Hn Hx]. split.
      * rewrite alguna_falla_app, (Hs a eq_refl). simpl.
        rewrite Hf, Ht, length_app in Hn. exact Hn.
      * rewrite <- Hr. exact Hx.
    + congruence.
  - split; [exact Hc|]. split; [exact Hf|]. exists cs.
    split; [exact Ht|]. rewrite Hr. reflexivity.
Qed.

(** [try { cuerpo } catch (error) { console.error(...); return error(...) }] *)
Lemma manejador_intentar (l ms c : string) (body : M unit) :
  cuerpo_ok body -> manejador_ok l ms c (intentar body (en_error l ms c)).
Proof.
  intros Hb w. unfold intentar.
  destruct (Hb w) as [Hc [Hf [cs [Ht Hs]]]].
  destruct (body w) as [w1 [[]|e]]; simpl in *.
  - split; [reflexivity|]. destruct Hs as [Hn [r [Hr [Hv Hi]]]].
    exists cs, r. split; [exact Ht|]. split; [exact Hr|]. right. auto.
  - split; [reflexivity|].
    exists cs, (sobre_error 500 ms c). split; [exact Ht|].
    split; [rewrite Hs; reflexivity|]. left. split; [reflexivity|].
    exists e. rewrite Hc. reflexivity.
Qed.

End Manejadores.

Section ManejadoresTodos.

Import ControladorMantenedores.

Variable CONSTANTES : Constantes.
Variable P : Plataforma.

(** The summary handler returns; it logs one line when one of its five
    queries is rejected and none otherwise. *)
Lemma obtenerResumenMantenedores_consola (req : Req) (w : Mundo) :
  let w' := fst (obtenerResumenMantenedores CONSTANTES P req w) in
  snd (obtenerResumenMantenedores CONSTANTES P req w) = Ok tt
  /\ if alguna_falla (falla w) (List.length (traza w)) consultas_resumen
     then exists e,
            consola w'
            = (consola w
               ++ [("Error al obtener resumen de mantenedores:", e)])%list
     else consola w' = consola w.
Proof.
  unfold obtenerResumenMantenedores, intentar. rewrite bind_def.
  unfold Promise_all5, count_, findFirst_.
  do 5 (rewrite paso_consulta by reflexivity;
        cbv beta; cbn [tablas falla traza consola res]).
  rewrite !length_app. cbn [List.length]. rewrite !Nat.add_1_r.
  unfold consultas_resumen, alguna_falla.
  set (n := List.length (traza w)).
  repeat match goal with
         | |- context [falla w ?i ?c] =>
             let b := fresh "b" in
             set (b := falla w i c) in *; clearbody b
         end.
  repeat match goal with
         | b : bool |- _ => destruct b
         end; cbn; (split; [reflexivity|]);
    first [reflexivity | eexists; reflexivity].
Qed.

Lemma manejador_ok_resumen (req : Req) :
  manejador_ok "Error al obtener resumen de mantenedores:"
    "Error al obtener resumen de mantenedores"
    "ERROR_OBTENER_RESUMEN_MANTENEDORES"
    (obtenerResumenMantenedores CONSTANTES P req).
Proof.
  intros w.
  destruct (obtenerResumenMantenedores_completo CONSTANTES P req w)
    as [Ht [_ Hr]].
  destruct (obtenerResumenMantenedores_consola req w) as [Hs Hc].
  cbv zeta in Ht, Hr, Hc.
  split; [exact Hs|]. exists consultas_resumen.
  destruct (alguna_falla (falla w) (List.length (traza w)) consultas_resumen).
  - exists (sobre_error 500 "Error al obtener resumen de mantenedores"
              "ERROR_OBTENER_RESUMEN_MANTENEDORES").
    split; [exact Ht|]. split; [rewrite Hr; reflexivity|]. left. auto.
  - eexists. split; [exact Ht|].
    split; [rewrite Hr; apply enviadas_json|].
    right. split; [reflexivity|]. simpl. auto.
Qed.

Ltac cuerpo_paso :=
  first
    [ apply cuerpo_ok_exito
    | apply cuerpo_ok_noEncontrado
    | apply cuerpo_ok_validacionFallida
    | apply cuerpo_ok_bind
    | apply tranquilo_findMany
    | apply tranquilo_findFirst
    | apply tranquilo_elevar
    | match goal with
      | |- cuerpo_ok (match ?x with _ => _ end) => destruct x
      | |- forall _, _ => intro
      end ].

(** Each of the twelve handlers is a whole handler in the sense of
    [manejador_ok], with its own line, message and code. *)
Lemma manejadores_ok :
  Forall
    (fun hc : (Req -> M unit) * (string * string * string) =>
       forall req : Req,
         manejador_ok (fst (fst (snd hc))) (snd (fst (snd hc))) (snd (snd hc))
           (fst hc req))
    (manejadores_errores CONSTANTES P).
Proof.
  unfold manejadores_errores.
  repeat (apply Forall_cons || apply Forall_nil); cbn [fst snd]; intros req;
    try apply manejador_ok_resumen;
    unfold obtenerPlantas, obtenerMateriales, obtenerMaterialPorCodigo,
      obtenerProveedores, obtenerProveedorPorCodigo, obtenerUbicaciones,
      obtenerUbicacionesPorPlanta, obtenerTemporadas, obtenerTemporadaActiva,
      obtenerTiposMovimiento, obtenerUnidadesMedida;
    cbv zeta; apply manejador_intentar; repeat cuerpo_paso.
Qed.

End ManejadoresTodos.

(** ** What holds of every handler *)

Section PropiedadesGenerales.

Import ControladorMantenedores.

Variable CONSTANTES : Constantes.
Variable P : Plataforma.

Lemma ultima_app (w' : Mundo) (rs : list Respuesta) (r : Respuesta) :
  enviadas (res w') = (rs ++ [r])%list -> ultima w' = r.
Proof. intros H. unfold ultima. rewrite H. apply last_last. Qed.

Lemma consultas_nuevas_app (w w' : Mundo) (cs : list consulta) :
  traza w' = (traza w ++ cs)%list -> consultas_nuevas w w' = cs.
Proof.
  intros H. unfold consultas_nuevas. rewrite H, skipn_app, skipn_all.
  rewrite Nat.sub_diag. reflexivity.
Qed.

Lemma sobre_error_valido (ms c : string) : sobre_valido (sobre_error 500 ms c) = true.
Proof. reflexivity. Qed.

(** No exception leaves a handler, and a handler writes exactly one
    response, whose status is 200, 400, 404 or 500: this for each of the
    twelve handlers, on every request and in every world. *)
Theorem una_respuesta_por_peticion :
  Forall
    (fun hc : (Req -> M unit) * (string * string * string) =>
       forall (req : Req) (w : Mundo),
         snd (fst hc req w) = Ok tt
         /\ exists r : Respuesta,
              enviadas (res (fst (fst hc req w)))
              = (enviadas (res w) ++ [r])%list
              /\ In (codigoHTTP r) [200; 400; 404; 500])
    (manejadores_errores CONSTANTES P).
Proof.
  eapply Forall_impl; [|apply manejadores_ok].
  intros hc H req w. destruct (H req w) as [Hs [cs [r [_ [Hr Hd]]]]].
  split; [exact Hs|]. exists r. split; [exact Hr|].
  destruct Hd as [[-> _]|[_ [Hi _]]]; simpl in *; intuition.
Qed.

(** The response of every handler keeps the envelope contract: [exito] is
    [true] exactly when the status is 200, [mensaje] is a string, a success
    carries [datos] and no [codigo], a failure a string [codigo] and no
    [datos]. *)
Theorem contrato_del_sobre :
  Forall
    (fun hc : (Req -> M unit) * (string * string * string) =>
       forall (req : Req) (w : Mundo),
         sobre_valido (ultima (fst (fst hc req w))) = true)
    (manejadores_errores CONSTANTES P).
Proof.
  eapply Forall_impl; [|apply manejadores_ok].
  intros hc H req w. destruct (H req w) as [_ [cs [r [_ [Hr Hd]]]]].
  rewrite (ultima_app _ _ _ Hr).
  destruct Hd as [[-> _]|[Hv _]]; [reflexivity|exact Hv].
Qed.

(** A handler writes to [console.error] exactly when it answers 500: one
    line then, under the handler's own label, and none with any other
    status (a 400 or a 404 is not logged). *)
Theorem registro_de_errores :
  Forall
    (fun hc : (Req -> M unit) * (string * string * string) =>
       forall (req : Req) (w : Mundo),
         let w' := fst (fst hc req w) in
         (codigoHTTP (ultima w') = 500
          /\ exists e, consola w' = (consola w ++ [(fst (fst (snd hc)), e)])%list)
         \/ (In (codigoHTTP (ultima w')) [200; 400; 404]
             /\ consola w' = consola w))
    (manejadores_errores CONSTANTES P).
Proof.
  eapply Forall_impl; [|apply manejadores_ok].
  intros hc H req w w'. destruct (H req w) as [_ [cs [r [_ [Hr Hd]]]]].
  unfold w'. rewrite (ultima_app _ _ _ Hr).
  destruct Hd as [[-> He]|[_ [Hi [Hc _]]]]; [left|right]; auto.
Qed.

(** What the client sees of a failure is fixed: when a handler answers 500
    the body is exactly [{exito: false, mensaje, codigo}] with the
    handler's own message and code, whatever was thrown. *)
Theorem error_no_filtrado :
  Forall
    (fun hc : (Req -> M unit) * (string * string * string) =>
       forall (req : Req) (w : Mundo),
         let w' := fst (fst hc req w) in
         ultima w' = sobre_error 500 (snd (fst (snd hc))) (snd (snd hc))
         \/ In (codigoHTTP (ultima w')) [200; 400; 404])
    (manejadores_errores CONSTANTES P).
Proof.
  eapply Forall_impl; [|apply manejadores_ok].
  intros hc H req w w'. destruct (H req w) as [_ [cs [r [_ [Hr Hd]]]]].
  unfold w'. rewrite (ultima_app _ _ _ Hr).
  destruct Hd as [[-> _]|[_ [Hi _]]]; [left|right]; auto.
Qed.

(** When one of the queries a handler has issued was rejected, the handler
    has answered with its own 500. *)
Theorem consulta_rechazada_500
    (hc : (Req -> M unit) * (string * string * string))
    (req : Req) (w : Mundo) :
  In hc (manejadores_errores CONSTANTES P) ->
  alguna_falla (falla w) (List.length (traza w))
    (consultas_nuevas w (fst (fst hc req w))) = true ->
  ultima (fst (fst hc req w))
  = sobre_error 500 (snd (fst (snd hc))) (snd (snd hc)).
Proof.
  intros Hin Hf.
  pose proof (proj1 (Forall_forall _ _) (manejadores_ok CONSTANTES P)
                hc Hin req w) as H.
  destruct H as [_ [cs [r [Ht [Hr Hd]]]]].
  rewrite (consultas_nuevas_app _ _ _ Ht) in Hf.
  rewrite (ultima_app _ _ _ Hr).
  destruct Hd as [[-> _]|[_ [_ [_ Hn]]]]; [reflexivity|congruence].
Qed.

End PropiedadesGenerales.

Lemma consulta_rechazada_500_ejemplo :
  let hc :=
    (ControladorMantenedores.obtenerTiposMovimiento Referencia.plataforma,
     ("Error al obtener tipos de movimiento:",
      "Error al obtener tipos de movimiento",
      "ERROR_OBTENER_TIPOS_MOVIMIENTO")) in
  In hc (manejadores_errores Referencia.constantes Referencia.plataforma)
  /\ alguna_falla (falla mundo_caido) (List.length (traza mundo_caido))
       (consultas_nuevas mundo_caido (fst (fst hc (mkReq [] []) mundo_caido)))
     = true
  /\ ultima (fst (fst hc (mkReq [] []) mundo_caido))
     = sobre_error 500 "Error al obtener tipos de movimiento"
         "ERROR_OBTENER_TIPOS_MOVIMIENTO".
Proof.
  intros hc.
  assert (In hc (manejadores_errores Referencia.constantes Referencia.plataforma))
    as Hin by (unfold hc; simpl; do 9 right; left; reflexivity).
  split; [exact Hin|]. split; [reflexivity|].
  exact (consulta_rechazada_500 Referencia.constantes Referencia.plataforma
           hc (mkReq [] []) mundo_caido Hin eq_refl).
Defined.

(** ** What a reading query sees *)

Section Consultas.

Import ControladorMantenedores.

Variable P : Plataforma.

Lemma igual_estricto_bool (v : valor) (b : bool) :
  igual_estricto v (VBool b) = true <-> v = VBool b.
Proof.
  destruct v; simpl; try (split; [discriminate|congruence]).
  rewrite Bool.eqb_true_iff. split; congruence.
Qed.

Lemma igual_estricto_num (v : valor) (z : Z) :
  igual_estricto v (VNum z) = true <-> v = VNum z.
Proof.
  destruct v; simpl; try (split; [discriminate|congruence]).
  rewrite Z.eqb_eq. split; congruence.
Qed.

Lemma cumple_igual_bool (k : string) (b : bool) (f : fila) :
  cumple P [(k, igual (VBool b))] f = igual_estricto (prop k f) (VBool b).
Proof. unfold cumple. simpl. apply andb_true_r. Qed.

(** The rows of a listing filtered on [activo] are as many as the rows of
    the table with that [activo], when sorting keeps the number of rows. *)
Lemma filas_de_activo_longitud (t : tablas_t) (m : modelo) (b : bool)
    (s : option (list string)) (o : list (string * direccion)) :
  ordenar_conserva_longitud P ->
  List.length (filas_de P t (mkConsulta m findMany
                               [("activo", igual (VBool b))] s o))
  = List.length (filter (fun f => igual_estricto (prop "activo" f) (VBool b))
                        (t m)).
Proof.
  intros H. unfold filas_de. cbn [where_ sobre orderBy select_].
  rewrite length_map.
  rewrite (filter_ext _ _ (cumple_igual_bool "activo" b)).
  destruct o; [reflexivity|apply H].
Qed.

(** Every row a query sees is the projection of a row of the table that
    satisfies the [where], when sorting returns only rows it was given. *)
Lemma filas_de_origen (t : tablas_t) (c : consulta) (x : fila) :
  ordenar_conserva_filas P ->
  In x (filas_de P t c) ->
  exists f, In f (t (sobre c)) /\ cumple P (where_ c) f = true
            /\ x = proyectar (select_ c) f.
Proof.
  intros H Hx. unfold filas_de in Hx. apply in_map_iff in Hx.
  destruct Hx as [f [<- Hf]]. exists f.
  assert (In f (filter (cumple P (where_ c)) (t (sobre c)))) as Hin
    by (destruct (orderBy c); [exact Hf|exact (H _ _ _ Hf)]).
  apply filter_In in Hin. tauto.
Qed.

(** The first row a [findFirst] sees is the projection of the first row of
    the table that satisfies the [where]. *)
Lemma primera_fila (t : tablas_t) (m : modelo) (w : list (string * filtro))
    (s : option (list string)) :
  hd_error (filas_de P t (mkConsulta m findFirst w s []))
  = option_map (proyectar s) (find (cumple P w) (t m)).
Proof.
  unfold filas_de. cbn [where_ sobre orderBy select_].
  rewrite hd_error_map, hd_error_filter. reflexivity.
Qed.

Lemma mapear_longitud {A B : Type} (f : A -> resultado B) (xs : list A)
    (ys : list B) :
  mapear f xs = Ok ys -> List.length ys = List.length xs.
Proof.
  revert ys. induction xs as [|x xs IH]; intros ys; simpl.
  - intros H. injection H as <-. reflexivity.
  - destruct (f x) as [y|e]; [|discriminate].
    destruct (mapear f xs) as [zs|e]; [|discriminate].
    intros H. injection H as <-. simpl. rewrite (IH zs eq_refl). reflexivity.
Qed.

Lemma mapear_origen {A B : Type} (f : A -> resultado B) (xs : list A)
    (ys : list B) (y : B) :
  mapear f xs = Ok ys -> In y ys -> exists x, In x xs /\ f x = Ok y.
Proof.
  revert ys. induction xs as [|x xs IH]; intros ys; simpl.
  - intros H. injection H as <-. intros [].
  - destruct (f x) as [y0|e] eqn:E; [|discriminate].
    destruct (mapear f xs) as [zs|e]; [|discriminate].
    intros H. injection H as <-. intros [<-|Hy].
    + exists x. auto.
    + destruct (IH zs eq_refl Hy) as [x' [Hx' Hf]]. exists x'. auto.
Qed.

End Consultas.

(** ** The listings, row by row *)

(** The last response of a world whose [res] was just written by the
    envelope helper. *)
Ltac ver_ultima :=
  erewrite ultima_app
    by (cbn [res];
        unfold ManejadorRespuestas.error, ManejadorRespuestas.exito,
          ManejadorRespuestas.noEncontrado,
          ManejadorRespuestas.validacionFallida,
          ManejadorRespuestas.o_defecto;
        apply enviadas_json).

Section ListadosFilas.

Import ControladorMantenedores.

Variable P : Plataforma.

Lemma es_activo_pide (v : valor) :
  es_activo (por_defecto v (VBool true)) = pide_activos v.
Proof.
  destruct v as [| |[]| | | |]; try reflexivity.
  unfold es_activo. simpl. apply orb_false_r.
Qed.

Lemma activo_formatear_proveedor (x : fila) (d : valor) :
  formatear_proveedor x = Ok d -> prop "activo" (campos d) = prop "activo" x.
Proof.
  unfold formatear_proveedor.
  destruct (codigo_sintetico "PROV" (prop "id" x)); [|discriminate].
  intros H. injection H as <-. reflexivity.
Qed.

Lemma activo_formatear_ubicacion (x : fila) (d : valor) :
  formatear_ubicacion x = Ok d
  -> prop "activo" (campos d) = prop "activo" x
     /\ prop "planta" (campos d) = prop "planta" x.
Proof.
  unfold formatear_ubicacion.
  destruct (codigo_sintetico "UB" (prop "id" x)); [|discriminate].
  intros H. injection H as <-. split; reflexivity.
Qed.

Lemma Forall_map_origen {A B : Type} (g : A -> B) (Q : B -> Prop) (l : list A) :
  (forall x, In x l -> Q (g x)) -> Forall Q (map g l).
Proof.
  intros H. apply Forall_forall. intros y Hy. apply in_map_iff in Hy.
  destruct Hy as [x [<- Hx]]. auto.
Qed.

(** A listing either answers 500 or answers 200 with one element per row
    its query saw, the [activo] of each element being that of a row seen,
    and with [total] the number of elements. *)
Lemma listado_forma (req : Req) (w : Mundo) :
  Forall
    (fun hm : (Req -> M unit) * modelo =>
         let c := consulta_listado (snd hm)
                    (pide_activos (prop "activo" (query req))) in
         let w' := fst (fst hm req w) in
         (exists ms co, ultima w' = sobre_error 500 ms co)
         \/ exists ds msg,
              ultima w'
              = mkRespuesta 200
                  (VObj [("exito", VBool true);
                         ("mensaje", VStr msg);
                         ("datos", VArr ds);
                         ("total", VNum (Z.of_nat (List.length ds)))])
              /\ List.length ds = List.length (filas_de P (tablas w) c)
              /\ Forall (fun d => exists x,
                            In x (filas_de P (tablas w) c)
                            /\ prop "activo" (campos d) = prop "activo" x)
                        ds)
    (listados P).
Proof.
  unfold listados.
  repeat (apply Forall_cons || apply Forall_nil); cbn [fst snd];
    cbv zeta; unfold consulta_listado;
    unfold obtenerMateriales, obtenerProveedores, obtenerUbicaciones,
      obtenerTemporadas, obtenerTiposMovimiento, findMany_, en_error;
    unfold intentar, bind, emitir, leer, elevar, console_error, responder;
    cbv beta zeta; rewrite es_activo_pide;
    match goal with
    | |- context [falla w ?n ?c] => destruct (falla w n c)
    end; try (left; do 2 eexists; ver_ultima; reflexivity);
    cbn [fst snd tablas falla traza consola res efecto op].
  - right. do 2 eexists. split; [ver_ultima; reflexivity|].
    split; [apply length_map|].
    apply Forall_map_origen. intros x Hx. exists x. auto.
  - match goal with
    | |- context [mapear ?f ?l] => destruct (mapear f l) as [ds|e] eqn:E
    end; [|left; do 2 eexists; ver_ultima; reflexivity].
    right. do 2 eexists. split; [ver_ultima; reflexivity|].
    split; [exact (mapear_longitud _ _ _ E)|].
    apply Forall_forall. intros d Hd.
    destruct (mapear_origen _ _ _ _ E Hd) as [x [Hx Hf]].
    exists x. split; [exact Hx|exact (activo_formatear_proveedor _ _ Hf)].
  - match goal with
    | |- context [mapear ?f ?l] => destruct (mapear f l) as [ds|e] eqn:E
    end; [|left; do 2 eexists; ver_ultima; reflexivity].
    right. do 2 eexists. split; [ver_ultima; reflexivity|].
    split; [exact (mapear_longitud _ _ _ E)|].
    apply Forall_forall. intros d Hd.
    destruct (mapear_origen _ _ _ _ E Hd) as [x [Hx Hf]].
    exists x. split; [exact Hx|exact (proj1 (activo_formatear_ubicacion _ _ Hf))].
  - right. do 2 eexists. split; [ver_ultima; reflexivity|].
    split; [apply length_map|].
    apply Forall_map_origen. intros x Hx. exists x. auto.
  - right. do 2 eexists. split; [ver_ultima; reflexivity|].
    split; [apply length_map|].
    apply Forall_map_origen. intros x Hx. exists x. auto.
Qed.

End ListadosFilas.

Section ListadosPropiedades.

Import ControladorMantenedores.

Variable P : Plataforma.

Lemma consulta_listado_forma (m : modelo) (b : bool) :
  sobre (consulta_listado m b) = m
  /\ where_ (consulta_listado m b) = [("activo", igual (VBool b))]
  /\ exists ks o,
       consulta_listado m b
       = mkConsulta m findMany [("activo", igual (VBool b))] (Some ks) o
       /\ existsb (String.eqb "activo") ks = true.
Proof.
  destruct m; repeat split; do 2 eexists; split; reflexivity.
Qed.

(** In each of the five listings a 200 carries as many elements as the
    table has rows whose [activo] is the one asked for, and [total] is that
    number; the one asked for is [true] when the [activo] parameter is
    absent, the string "true" or the boolean [true], and [false] for any
    other value.  This on a platform whose sort keeps the number of rows. *)
Theorem listados_total (req : Req) (w : Mundo) :
  ordenar_conserva_longitud P ->
  Forall
    (fun hm : (Req -> M unit) * modelo =>
       let r := ultima (fst (fst hm req w)) in
       let n := List.length
                  (filter (fun f => igual_estricto (prop "activo" f)
                             (VBool (pide_activos (prop "activo" (query req)))))
                          (tablas w (snd hm))) in
       codigoHTTP r = 500
       \/ (codigoHTTP r = 200
           /\ prop "total" (campos (cuerpo r)) = VNum (Z.of_nat n)
           /\ List.length (elementos (prop "datos" (campos (cuerpo r)))) = n))
    (listados P).
Proof.
  intros HP. eapply Forall_impl; [|apply (listado_forma P req w)].
  intros hm H. cbv zeta in *.
  destruct H as [[ms [co ->]]|[ds [msg [-> [Hl _]]]]]; [left; reflexivity|].
  right.
  destruct (consulta_listado_forma (snd hm)
              (pide_activos (prop "activo" (query req))))
    as [_ [_ [ks [o [Ec _]]]]].
  rewrite Ec, (filas_de_activo_longitud P _ _ _ _ _ HP) in Hl.
  cbn. rewrite Hl. auto.
Qed.

(** In each of the five listings every element answered has the [activo]
    that was asked for: a listing never shows a row of the other kind.
    This on a platform whose sort returns only rows it was given. *)
Theorem listados_solo_filtradas (req : Req) (w : Mundo) :
  ordenar_conserva_filas P ->
  Forall
    (fun hm : (Req -> M unit) * modelo =>
       Forall
         (fun d => prop "activo" (campos d)
                   = VBool (pide_activos (prop "activo" (query req))))
         (elementos (prop "datos"
                       (campos (cuerpo (ultima (fst (fst hm req w))))))))
    (listados P).
Proof.
  intros HP. eapply Forall_impl; [|apply (listado_forma P req w)].
  intros hm H. cbv zeta in *.
  destruct H as [[ms [co ->]]|[ds [msg [-> [_ Hf]]]]]; [apply Forall_nil|].
  cbn. eapply Forall_impl; [|exact Hf].
  intros d [x [Hx ->]].
  destruct (consulta_listado_forma (snd hm)
              (pide_activos (prop "activo" (query req))))
    as [_ [_ [ks [o [Ec Hk]]]]].
  rewrite Ec in Hx.
  destruct (filas_de_origen P _ _ _ HP Hx) as [f [_ [Hc ->]]].
  cbn [where_ select_] in *. rewrite cumple_igual_bool in Hc.
  apply igual_estricto_bool in Hc.
  rewrite (prop_proyectar _ _ _ Hk). exact Hc.
Qed.

(** The summary handler and the listings agree.  Run the summary handler in
    a world with the same tables as the one a listing is run in, the
    listing with no [activo] parameter: unless the summary answers 500, it
    answers 200, and the [total] of the materials, suppliers, locations and
    movement-types listings, when they do not answer 500, are the
    [materiales], [proveedores], [ubicaciones] and [tiposMovimiento] of the
    summary's [datos].  This on a platform whose sort keeps the number of
    rows. *)
Theorem resumen_coincide_con_listados (CONSTANTES : Constantes)
    (req req' : Req) (w w2 : Mundo) :
  ordenar_conserva_longitud P ->
  prop "activo" (query req) = VUndefined ->
  tablas w2 = tablas w ->
  let rs := ultima (fst (obtenerResumenMantenedores CONSTANTES P req' w2)) in
  let total h := prop "total" (campos (cuerpo (ultima (fst (h req w))))) in
  let estado h := codigoHTTP (ultima (fst (h req w))) in
  let cuenta k := prop k (campos (prop "datos" (campos (cuerpo rs)))) in
  codigoHTTP rs = 500
  \/ (codigoHTTP rs = 200
      /\ (estado (obtenerMateriales P) = 500
          \/ total (obtenerMateriales P) = cuenta "materiales")
      /\ (estado (obtenerProveedores P) = 500
          \/ total (obtenerProveedores P) = cuenta "proveedores")
      /\ (estado (obtenerUbicaciones P) = 500
          \/ total (obtenerUbicaciones P) = cuenta "ubicaciones")
      /\ (estado (obtenerTiposMovimiento P) = 500
          \/ total (obtenerTiposMovimiento P) = cuenta "tiposMovimiento")).
Proof.
  intros HP Hv Ht rs total estado cuenta.
  destruct (obtenerResumenMantenedores_completo CONSTANTES P req' w2)
    as [_ [_ Hr]]. cbv zeta in Hr.
  assert (codigoHTTP rs = 500
          \/ (codigoHTTP rs = 200
              /\ prop "datos" (campos (cuerpo rs))
                 = resumen_de CONSTANTES (tablas w))) as Hs.
  { unfold rs.
    destruct (alguna_falla (falla w2) (List.length (traza w2)) consultas_resumen).
    - left. erewrite ultima_app by (rewrite Hr; apply enviadas_json).
      reflexivity.
    - right. erewrite ultima_app by (rewrite Hr; apply enviadas_json).
      rewrite Ht. split; reflexivity. }
  destruct Hs as [Hs|[Hs Hd]]; [left; exact Hs|]. right.
  split; [exact Hs|]. unfold cuenta. rewrite Hd.
  pose proof (listado_forma P req w) as H. unfold listados in H.
  rewrite Hv in H. cbn [pide_activos] in H.
  assert (forall (h : Req -> M unit) (m : modelo),
             (let c := consulta_listado m true in
              let w' := fst (h req w) in
              (exists ms co, ultima w' = sobre_error 500 ms co)
              \/ exists ds msg,
                   ultima w'
                   = mkRespuesta 200
                       (VObj [("exito", VBool true); ("mensaje", VStr msg);
                              ("datos", VArr ds);
                              ("total", VNum (Z.of_nat (List.length ds)))])
                   /\ List.length ds = List.length (filas_de P (tablas w) c)
                   /\ Forall (fun d => exists x,
                                 In x (filas_de P (tablas w) c)
                                 /\ prop "activo" (campos d) = prop "activo" x)
                             ds) ->
             estado h = 500
             \/ total h
                = VNum (Z.of_nat
                          (List.length
                             (filter (fun f => igual_estricto (prop "activo" f)
                                                 (VBool true))
                                     (tablas w m))))) as Hg.
  { intros h m Hh. cbv zeta in Hh. unfold estado, total.
    destruct Hh as [[ms [co ->]]|[ds [msg [-> [Hl _]]]]]; [left; reflexivity|].
    right.
    destruct (consulta_listado_forma m true) as [_ [_ [ks [o [Ec _]]]]].
    rewrite Ec, (filas_de_activo_longitud P _ _ _ _ _ HP) in Hl.
    cbn. rewrite Hl. reflexivity. }
  inversion H as [|? ? H1 T1]; subst.
  inversion T1 as [|? ? H2 T2]; subst.
  inversion T2 as [|? ? H3 T3]; subst.
  inversion T3 as [|? ? _ T4]; subst.
  inversion T4 as [|? ? H5 _]; subst.
  cbn [fst snd] in *.
  repeat split.
  - exact (Hg _ _ H1).
  - exact (Hg _ _ H2).
  - exact (Hg _ _ H3).
  - exact (Hg _ _ H5).
Qed.

End ListadosPropiedades.

(** ** The reference platform *)

Section PlataformaReferencia.

Import ControladorMantenedores Referencia.

Lemma insertar_longitud o (f : fila) (fs : list fila) :
  List.length (insertar o f fs) = S (List.length fs).
Proof.
  induction fs as [|g r IH]; simpl; [reflexivity|].
  destruct (comparar_fila o f g); simpl; try reflexivity.
  rewrite IH. reflexivity.
Qed.

Lemma insertar_origen o (f x : fila) (fs : list fila) :
  In x (insertar o f fs) -> x = f \/ In x fs.
Proof.
  induction fs as [|g r IH]; simpl; [intuition|].
  destruct (comparar_fila o f g); simpl; intuition.
Qed.

Lemma plataforma_conserva_longitud : ordenar_conserva_longitud plataforma.
Proof.
  intros o fs. simpl. unfold ordenar_filas.
  induction fs as [|f r IH]; simpl; [reflexivity|].
  rewrite insertar_longitud, IH. reflexivity.
Qed.

Lemma plataforma_conserva_filas : ordenar_conserva_filas plataforma.
Proof.
  intros o fs. simpl. unfold ordenar_filas.
  induction fs as [|f r IH]; simpl; intros x Hx; [exact Hx|].
  apply insertar_origen in Hx. destruct Hx as [->|Hx]; auto.
Qed.

End PlataformaReferencia.

Lemma listados_total_ejemplo :
  ordenar_conserva_longitud Referencia.plataforma
  /\ Forall
       (fun hm : (Req -> M unit) * modelo =>
          let r := ultima (fst (fst hm (mkReq [] [("activo", VStr "no")])
                                  Referencia.mundo)) in
          let n := List.length
                     (filter (fun f => igual_estricto (prop "activo" f)
                                         (VBool false))
                             (tablas Referencia.mundo (snd hm))) in
          codigoHTTP r = 500
          \/ (codigoHTTP r = 200
              /\ prop "total" (campos (cuerpo r)) = VNum (Z.of_nat n)
              /\ List.length (elementos (prop "datos" (campos (cuerpo r)))) = n))
       (listados Referencia.plataforma).
Proof.
  split; [exact plataforma_conserva_longitud|].
  exact (listados_total Referencia.plataforma
           (mkReq [] [("activo", VStr "no")]) Referencia.mundo
           plataforma_conserva_longitud).
Defined.

Lemma listados_solo_filtradas_ejemplo :
  ordenar_conserva_filas Referencia.plataforma
  /\ Forall
       (fun hm : (Req -> M unit) * modelo =>
          Forall
            (fun d => prop "activo" (campos d) = VBool true)
            (elementos (prop "datos"
                          (campos (cuerpo (ultima (fst (fst hm (mkReq [] [])
                                                          Referencia.mundo))))))))
       (listados Referencia.plataforma).
Proof.
  split; [exact plataforma_conserva_filas|].
  exact (listados_solo_filtradas Referencia.plataforma (mkReq [] [])
           Referencia.mundo plataforma_conserva_filas).
Defined.

Lemma resumen_coincide_con_listados_ejemplo :
  let w := Referencia.mundo in
  let w2 := fst (ControladorMantenedores.obtenerProveedores
                   Referencia.plataforma (mkReq [] []) w) in
  let rs := ultima (fst (ControladorMantenedores.obtenerResumenMantenedores
                           Referencia.constantes Referencia.plataforma
                           (mkReq [] []) w2)) in
  ordenar_conserva_longitud Referencia.plataforma
  /\ prop "activo" (query (mkReq [] [])) = VUndefined
  /\ tablas w2 = tablas w
  /\ prop "total"
       (campos (cuerpo (ultima (fst (ControladorMantenedores.obtenerProveedores
                                       Referencia.plataforma (mkReq [] []) w)))))
     = prop "proveedores" (campos (prop "datos" (campos (cuerpo rs)))).
Proof.
  intros w w2 rs.
  split; [exact plataforma_conserva_longitud|]. split; [reflexivity|].
  split; [reflexivity|].
  destruct (resumen_coincide_con_listados Referencia.plataforma
              Referencia.constantes (mkReq [] []) (mkReq [] []) w w2
              plataforma_conserva_longitud eq_refl eq_refl)
    as [H|[_ [_ [[H|H] _]]]].
  - discriminate H.
  - discriminate H.
  - exact H.
Defined.

(** ** The query of each listing *)

Section ConsultaDeListado.

Import ControladorMantenedores.

(** Each of the five listings issues exactly one query, whatever comes of
    it: the [findMany] of its model with the columns and the order of the
    source and the filter [{ activo: b }], where [b] is [true] exactly when
    the [activo] parameter is absent, the string "true" or the boolean
    [true]; any other value, [null], "TRUE", "1" or "false" alike, asks for
    the rows whose [activo] is [false]. *)
Theorem listados_una_consulta (P : Plataforma) (req : Req) (w : Mundo) :
  let v := prop "activo" (query req) in
  Forall
    (fun hm : (Req -> M unit) * modelo =>
       traza (fst (fst hm req w))
       = (traza w ++ [consulta_listado (snd hm) (pide_activos v)])%list)
    (listados P)
  /\ (pide_activos v = true
      <-> v = VUndefined \/ v = VStr "true" \/ v = VBool true).
Proof.
  intros v. split.
  - unfold listados.
    repeat (apply Forall_cons || apply Forall_nil); cbn [fst snd];
      unfold obtenerMateriales, obtenerProveedores, obtenerUbicaciones,
        obtenerTemporadas, obtenerTiposMovimiento; cbv zeta;
      rewrite es_activo_pide; apply traza_listado; intros fs w';
      first [apply traza_responder | apply traza_elevar_responder].
  - destruct v as [| |[]| |s| |]; cbn [pide_activos];
      try solve [split; [intros H; try discriminate H; auto
                        |intros [H|[H|H]]; try discriminate H; auto]].
    rewrite String.eqb_eq. split.
    + intros ->. auto.
    + intros [H|[H|H]]; try discriminate H. congruence.
Qed.

End ConsultaDeListado.

(** ** The lookups by code *)

Section Busquedas.

Import ControladorMantenedores.

Variable P : Plataforma.

Lemma cumple_dos (k1 k2 : string) (v : valor) (f : fila) :
  v <> VUndefined ->
  cumple P [(k1, igual v); (k2, igual (VBool true))] f = true
  <-> igual_estricto (prop k1 f) v = true /\ prop k2 f = VBool true.
Proof.
  intros Hv. unfold cumple, cumple_filtro. cbn [forallb fst snd].
  rewrite andb_true_r, andb_true_iff, igual_estricto_bool.
  destruct v; try congruence; reflexivity.
Qed.

Lemma formatear_material_proyectar (f : fila) :
  formatear_material
    (proyectar (Some ["id"; "codigo_ranco"; "nombre_material"; "unidad_medida";
                      "frio"; "activo"]) f)
  = formatear_material f.
Proof.
  unfold formatear_material. rewrite !prop_proyectar by reflexivity.
  reflexivity.
Qed.

Lemma formatear_proveedor_proyectar (f : fila) :
  formatear_proveedor (proyectar (Some ["id"; "title"; "activo"]) f)
  = formatear_proveedor f.
Proof.
  unfold formatear_proveedor. rewrite !prop_proyectar by reflexivity.
  reflexivity.
Qed.

(** The material lookup, whole, for a [codigo] that is present. *)
Lemma obtenerMaterialPorCodigo_forma (req : Req) (w : Mundo) (codigo : string) :
  param "codigo" (params req) = Some codigo ->
  let wh := [("codigo_ranco", igual (VStr codigo));
             ("activo", igual (VBool true))] in
  let c := mkConsulta materiales findFirst wh
             (Some ["id"; "codigo_ranco"; "nombre_material"; "unidad_medida";
                    "frio"; "activo"]) [] in
  let w' := fst (obtenerMaterialPorCodigo P req w) in
  traza w' = (traza w ++ [c])%list
  /\ ultima w'
     = if falla w (List.length (traza w)) c
       then sobre_error 500 "Error al obtener material" "ERROR_OBTENER_MATERIAL"
       else match find (cumple P wh) (tablas w materiales) with
            | Some f =>
                mkRespuesta 200
                  (VObj [("exito", VBool true);
                         ("mensaje", VStr "Material obtenido exitosamente");
                         ("datos", formatear_material f);
                         ("total", VUndefined)])
            | None =>
                sobre_error 404
                  ("Material con código " ++ codigo ++ " no encontrado")
                  "RECURSO_NO_ENCONTRADO"
            end.
Proof.
  intros Hc wh c w'. unfold w', obtenerMaterialPorCodigo, findFirst_, en_error.
  unfold intentar, bind, emitir, leer, console_error, responder.
  cbv beta zeta. rewrite Hc. cbn [param_valor ToString]. fold wh. fold c.
  destruct (falla w (List.length (traza w)) c).
  - split; [reflexivity|]. ver_ultima. reflexivity.
  - cbn [fst snd tablas falla traza consola res].
    change (efecto P c (tablas w)) with (tablas w).
    unfold c. rewrite !primera_fila.
    destruct (find (cumple P wh) (tablas w materiales)) as [f|];
      cbn [option_map fst snd traza]; (split; [reflexivity|]);
      ver_ultima; rewrite ?formatear_material_proyectar; reflexivity.
Qed.

(** The supplier lookup, whole, for a [codigo] that is present and not
    empty. *)
Lemma obtenerProveedorPorCodigo_forma (req : Req) (w : Mundo) (codigo : string) :
  presente (param "codigo" (params req)) = Some codigo ->
  let c := mkConsulta proveedores findFirst (whereClause codigo)
             (Some ["id"; "title"; "activo"]) [] in
  let w' := fst (obtenerProveedorPorCodigo P req w) in
  traza w' = (traza w ++ [c])%list
  /\ ultima w'
     = if falla w (List.length (traza w)) c
       then sobre_error 500 "Error al obtener proveedor" "ERROR_OBTENER_PROVEEDOR"
       else match find (cumple P (whereClause codigo)) (tablas w proveedores) with
            | Some f =>
                match formatear_proveedor f with
                | Ok d =>
                    mkRespuesta 200
                      (VObj [("exito", VBool true);
                             ("mensaje", VStr "Proveedor obtenido exitosamente");
                             ("datos", d);
                             ("total", VUndefined)])
                | Lanza _ =>
                    sobre_error 500 "Error al obtener proveedor"
                      "ERROR_OBTENER_PROVEEDOR"
                end
            | None =>
                sobre_error 404
                  ("Proveedor con código " ++ codigo ++ " no encontrado")
                  "RECURSO_NO_ENCONTRADO"
            end.
Proof.
  intros Hc c w'. unfold w', obtenerProveedorPorCodigo, findFirst_, en_error.
  unfold intentar, bind, emitir, leer, elevar, console_error, responder.
  cbv beta zeta. rewrite Hc. fold c.
  destruct (falla w (List.length (traza w)) c).
  - split; [reflexivity|]. ver_ultima. reflexivity.
  - cbn [fst snd tablas falla traza consola res].
    change (efecto P c (tablas w)) with (tablas w).
    unfold c. rewrite !primera_fila.
    destruct (find (cumple P (whereClause codigo)) (tablas w proveedores))
      as [f|]; cbn [option_map fst snd traza].
    + rewrite formatear_proveedor_proyectar. unfold formatear_proveedor.
      destruct (codigo_sintetico "PROV" (prop "id" f)) as [co|e];
        cbn [fst snd traza]; (split; [reflexivity|]); ver_ultima;
        reflexivity.
    + split; [reflexivity|]. ver_ultima. reflexivity.
Qed.

End Busquedas.

Section BusquedasPropiedades.

Import ControladorMantenedores.

Variable P : Plataforma.

(** The lookup of a material by code answers 500, or 404 with the code in
    its message when the table has no row with that [codigo_ranco] and
    [activo] [true], or 200 with a row of the table formatted, whose
    [codigo] is the one asked for and whose [activo] is [true]: an
    inactive material is never answered. *)
Theorem material_por_codigo (req : Req) (w : Mundo) (codigo : string) :
  param "codigo" (params req) = Some codigo ->
  let r := ultima (fst (obtenerMaterialPorCodigo P req w)) in
  codigoHTTP r = 500
  \/ (r = sobre_error 404
            ("Material con código " ++ codigo ++ " no encontrado")
            "RECURSO_NO_ENCONTRADO"
      /\ forall f, In f (tablas w materiales) ->
                   ~ (prop "codigo_ranco" f = VStr codigo
                      /\ prop "activo" f = VBool true))
  \/ (codigoHTTP r = 200
      /\ exists f,
           In f (tablas w materiales)
           /\ prop "datos" (campos (cuerpo r)) = formatear_material f
           /\ prop "codigo" (campos (formatear_material f)) = VStr codigo
           /\ prop "activo" (campos (formatear_material f)) = VBool true).
Proof.
  intros Hc r.
  destruct (obtenerMaterialPorCodigo_forma P req w codigo Hc) as [_ Hu].
  cbv zeta in Hu. unfold r. rewrite Hu. clear Hu.
  destruct (falla w _ _); [left; reflexivity|]. right.
  match goal with
  | |- context [find ?p ?l] => destruct (find p l) as [f|] eqn:E
  end.
  - right. split; [reflexivity|]. apply find_some in E. destruct E as [Hin Hf].
    apply cumple_dos in Hf; [|discriminate]. destruct Hf as [H1 H2].
    apply igual_estricto_cadena in H1.
    exists f. split; [exact Hin|]. split; [reflexivity|].
    split; [exact H1|exact H2].
  - left. split; [reflexivity|]. intros f Hin [H1 H2].
    pose proof (find_none _ _ E f Hin) as Hn.
    assert (cumple P [("codigo_ranco", igual (VStr codigo));
                      ("activo", igual (VBool true))] f = true) as Ht.
    { apply cumple_dos; [discriminate|]. split; [|exact H2].
      apply igual_estricto_cadena. exact H1. }
    congruence.
Qed.

Lemma whereClause_activo (codigo : string) (f : fila) :
  cumple P (whereClause codigo) f = true -> prop "activo" f = VBool true.
Proof.
  unfold whereClause.
  destruct (startsWith codigo "PROV"); [destruct (parseInt _)|];
    unfold cumple; cbn [forallb]; rewrite !andb_true_iff;
    intros [_ [H _]]; apply igual_estricto_bool; exact H.
Qed.

(** The lookup of a supplier by a code that is present and not empty
    answers 500, or 404 with the code in its message, or 200 with a row of
    the table whose [activo] is [true], formatted: its [codigo] is the
    code synthesized from its own id and its [nombre] is the row's
    [title].  An inactive supplier is never answered, whichever branch the
    code took. *)
Theorem proveedor_por_codigo_activo (req : Req) (w : Mundo) (codigo : string) :
  presente (param "codigo" (params req)) = Some codigo ->
  let r := ultima (fst (obtenerProveedorPorCodigo P req w)) in
  let datos := campos (prop "datos" (campos (cuerpo r))) in
  codigoHTTP r = 500
  \/ r = sobre_error 404
           ("Proveedor con código " ++ codigo ++ " no encontrado")
           "RECURSO_NO_ENCONTRADO"
  \/ (codigoHTTP r = 200
      /\ exists f co,
           In f (tablas w proveedores)
           /\ prop "activo" f = VBool true
           /\ codigo_sintetico "PROV" (prop "id" f) = Ok co
           /\ prop "id" datos = prop "id" f
           /\ prop "codigo" datos = VStr co
           /\ prop "nombre" datos = prop "title" f
           /\ prop "activo" datos = VBool true).
Proof.
  intros Hc r datos.
  destruct (obtenerProveedorPorCodigo_forma P req w codigo Hc) as [_ Hu].
  cbv zeta in Hu. unfold datos, r. rewrite Hu. clear Hu.
  destruct (falla w _ _); [left; reflexivity|].
  destruct (find _ (tablas w proveedores)) as [f|] eqn:E;
    [|right; left; reflexivity].
  apply find_some in E. destruct E as [Hin Hf].
  apply whereClause_activo in Hf.
  unfold formatear_proveedor.
  destruct (codigo_sintetico "PROV" (prop "id" f)) as [co|e] eqn:Ec.
  - right. right. split; [reflexivity|]. exists f, co. cbn.
    repeat split; auto.
  - left. reflexivity.
Qed.

(** A code made of "PROV" and decimal digits, leading zeros or not, that
    denote a number below [2^53] (one a double holds exactly) is looked up
    by one [findFirst] on the id the digits denote; the answer is 500, or
    404 when no row has that id and [activo] [true], or 200 with the
    supplier of that id. *)
Theorem proveedor_por_digitos (req : Req) (w : Mundo) (digitos : string) :
  solo_digitos digitos = true ->
  (valor_decimal digitos < 2 ^ 53)%N ->
  param "codigo" (params req) = Some ("PROV" ++ digitos) ->
  let n := Z.of_N (valor_decimal digitos) in
  let w' := fst (obtenerProveedorPorCodigo P req w) in
  let r := ultima w' in
  traza w'
  = (traza w
     ++ [mkConsulta proveedores findFirst
           [("id", igual (VNum n)); ("activo", igual (VBool true))]
           (Some ["id"; "title"; "activo"]) []])%list
  /\ (codigoHTTP r = 500
      \/ (codigoHTTP r = 404
          /\ forall f, In f (tablas w proveedores) ->
                       ~ (prop "id" f = VNum n /\ prop "activo" f = VBool true))
      \/ (codigoHTTP r = 200
          /\ prop "id" (campos (prop "datos" (campos (cuerpo r)))) = VNum n)).
Proof.
  intros Hd Hb Hp n w' r.
  assert (presente (param "codigo" (params req)) = Some ("PROV" ++ digitos))
    as Hc by (rewrite Hp; reflexivity).
  destruct (obtenerProveedorPorCodigo_forma P req w _ Hc) as [Ht Hu].
  cbv zeta in Ht, Hu. rewrite (whereClause_PROV_digitos digitos Hd Hb) in Ht, Hu.
  fold n in Ht, Hu. split; [exact Ht|]. unfold r, w'. rewrite Hu. clear Ht Hu.
  destruct (falla w _ _); [left; reflexivity|].
  match goal with
  | |- context [find ?p ?l] => destruct (find p l) as [f|] eqn:E
  end.
  - apply find_some in E. destruct E as [Hin Hf].
    apply cumple_dos in Hf; [|discriminate]. destruct Hf as [H1 H2].
    apply igual_estricto_num in H1.
    unfold formatear_proveedor.
    destruct (codigo_sintetico "PROV" (prop "id" f)) as [co|e];
      [|left; reflexivity].
    right. right. split; [reflexivity|]. cbn. exact H1.
  - right. left. split; [reflexivity|]. intros f Hin [H1 H2].
    pose proof (find_none _ _ E f Hin) as Hn.
    assert (cumple P [("id", igual (VNum n)); ("activo", igual (VBool true))] f
            = true) as Hy.
    { apply cumple_dos; [discriminate|]. split; [|exact H2].
      apply igual_estricto_num. exact H1. }
    congruence.
Qed.

(** The code the suppliers listing writes for the id [n], [n] below [2^53]
    (an integer a double holds exactly), given back to the lookup by code,
    finds the supplier of id [n] and is answered with that very code: the
    answer is 500, 404, or 200 with [id] [n] and the [codigo] that was
    asked for. *)
Theorem proveedor_ida_y_vuelta (req : Req) (w : Mundo) (n : N)
    (codigo : string) :
  (n < 2 ^ 53)%N ->
  codigo_sintetico "PROV" (VNum (Z.of_N n)) = Ok codigo ->
  param "codigo" (params req) = Some codigo ->
  let r := ultima (fst (obtenerProveedorPorCodigo P req w)) in
  let datos := campos (prop "datos" (campos (cuerpo r))) in
  codigoHTTP r = 500
  \/ codigoHTTP r = 404
  \/ (codigoHTTP r = 200
      /\ prop "id" datos = VNum (Z.of_N n)
      /\ prop "codigo" datos = VStr codigo).
Proof.
  intros Hb Hs Hp r datos.
  destruct (whereClause_codigo_sintetico n Hb) as [c' [Hs' Hw]].
  assert (c' = codigo) as -> by congruence.
  assert (presente (param "codigo" (params req)) = Some codigo) as Hc.
  { rewrite Hp. revert Hs. unfold codigo_sintetico. rewrite toString_id.
    intros H. injection H as <-. reflexivity. }
  destruct (obtenerProveedorPorCodigo_forma P req w _ Hc) as [_ Hu].
  cbv zeta in Hu. rewrite Hw in Hu. unfold datos, r. rewrite Hu. clear Hu.
  destruct (falla w _ _); [left; reflexivity|]. right.
  match goal with
  | |- context [find ?p ?l] => destruct (find p l) as [f|] eqn:E
  end; [|left; reflexivity].
  apply find_some in E. destruct E as [_ Hf].
  apply cumple_dos in Hf; [|discriminate]. destruct Hf as [H1 _].
  apply igual_estricto_num in H1.
  unfold formatear_proveedor. rewrite H1, Hs.
  right. split; [reflexivity|]. cbn. auto.
Qed.

End BusquedasPropiedades.

Lemma material_por_codigo_ejemplo :
  let req := mkReq [("codigo", "M-03")] [] in
  param "codigo" (params req) = Some "M-03"
  /\ ultima (fst (ControladorMantenedores.obtenerMaterialPorCodigo
                    Referencia.plataforma req Referencia.mundo))
     = sobre_error 404 "Material con código M-03 no encontrado"
         "RECURSO_NO_ENCONTRADO".
Proof.
  intros req. split; [reflexivity|].
  destruct (material_por_codigo Referencia.plataforma req Referencia.mundo
              "M-03" eq_refl) as [H|[[H _]|[H _]]].
  - discriminate H.
  - exact H.
  - discriminate H.
Defined.

Lemma proveedor_por_codigo_activo_ejemplo :
  let req := mkReq [("codigo", "frutas")] [] in
  presente (param "codigo" (params req)) = Some "frutas"
  /\ ultima (fst (ControladorMantenedores.obtenerProveedorPorCodigo
                    Referencia.plataforma req Referencia.mundo))
     = sobre_error 404 "Proveedor con código frutas no encontrado"
         "RECURSO_NO_ENCONTRADO".
Proof.
  intros req. split; [reflexivity|].
  destruct (proveedor_por_codigo_activo Referencia.plataforma req
              Referencia.mundo "frutas" eq_refl) as [H|[H|[H _]]].
  - discriminate H.
  - exact H.
  - discriminate H.
Defined.

Lemma proveedor_por_digitos_ejemplo :
  let req := mkReq [("codigo", "PROV0012")] [] in
  solo_digitos "0012" = true
  /\ (valor_decimal "0012" < 2 ^ 53)%N
  /\ param "codigo" (params req) = Some ("PROV" ++ "0012")
  /\ traza (fst (ControladorMantenedores.obtenerProveedorPorCodigo
                   Referencia.plataforma req Referencia.mundo))
     = [mkConsulta proveedores findFirst
          [("id", igual (VNum 12)); ("activo", igual (VBool true))]
          (Some ["id"; "title"; "activo"]) []].
Proof.
  intros req. split; [reflexivity|]. split; [reflexivity|].
  split; [reflexivity|].
  exact (proj1 (proveedor_por_digitos Referencia.plataforma req
                  Referencia.mundo "0012" eq_refl eq_refl eq_refl)).
Defined.

Lemma proveedor_ida_y_vuelta_ejemplo :
  let req := mkReq [("codigo", "PROV007")] [] in
  let r := ultima (fst (ControladorMantenedores.obtenerProveedorPorCodigo
                          Referencia.plataforma req Referencia.mundo)) in
  (7 < 2 ^ 53)%N
  /\ ControladorMantenedores.codigo_sintetico "PROV" (VNum (Z.of_N 7)) = Ok "PROV007"
  /\ param "codigo" (params req) = Some "PROV007"
  /\ prop "codigo" (campos (prop "datos" (campos (cuerpo r)))) = VStr "PROV007".
Proof.
  intros req r. split; [reflexivity|]. split; [reflexivity|].
  split; [reflexivity|].
  destruct (proveedor_ida_y_vuelta Referencia.plataforma req Referencia.mundo
              7 "PROV007" eq_refl eq_refl eq_refl) as [H|[H|[_ [_ H]]]].
  - discriminate H.
  - discriminate H.
  - exact H.
Defined.

(** ** Locations by plant *)

Section PorPlanta.

Import ControladorMantenedores.

Variable P : Plataforma.

Lemma cumple_planta (u : string) (b : bool) (f : fila) :
  cumple P [("planta", igual (VStr u)); ("activo", igual (VBool b))] f = true ->
  prop "planta" f = VStr u /\ prop "activo" f = VBool b.
Proof.
  unfold cumple, cumple_filtro. cbn [forallb fst snd].
  rewrite andb_true_r, andb_true_iff, igual_estricto_bool, igual_estricto_cadena.
  auto.
Qed.

(** The locations of the plant [planta], [planta] being present and not
    empty: one [findMany] on the upper-cased plant and the [activo] asked
    for, and then a 500 or a 200 whose message names the upper-cased plant
    and whose elements all have that plant and that [activo].  This on a
    platform whose sort returns only rows it was given. *)
Theorem ubicaciones_por_planta (req : Req) (w : Mundo) (planta : string) :
  ordenar_conserva_filas P ->
  presente (param "planta" (params req)) = Some planta ->
  let b := pide_activos (prop "activo" (query req)) in
  let w' := fst (obtenerUbicacionesPorPlanta P req w) in
  let r := ultima w' in
  traza w'
  = (traza w
     ++ [mkConsulta ubicacion findMany
           [("planta", igual (VStr (toUpperCase P planta)));
            ("activo", igual (VBool b))]
           (Some ["id"; "title"; "bodega_deposito"; "planta"; "activo"])
           [("bodega_deposito", asc); ("title", asc)]])%list
  /\ (codigoHTTP r = 500
      \/ (codigoHTTP r = 200
          /\ prop "mensaje" (campos (cuerpo r))
             = VStr ("Ubicaciones de planta " ++ toUpperCase P planta
                     ++ " obtenidas exitosamente")
          /\ Forall (fun d =>
                       prop "planta" (campos d) = VStr (toUpperCase P planta)
                       /\ prop "activo" (campos d) = VBool b)
                    (elementos (prop "datos" (campos (cuerpo r)))))).
Proof.
  intros HP Hp b w' r. unfold r, w', obtenerUbicacionesPorPlanta, findMany_, en_error.
  unfold intentar, bind, emitir, leer, elevar, console_error, responder.
  cbv beta zeta. rewrite Hp, es_activo_pide. fold b.
  match goal with
  | |- context [falla w ?n ?c] => set (c0 := c); destruct (falla w n c0)
  end.
  - split; [reflexivity|]. left. ver_ultima. reflexivity.
  - cbn [fst snd tablas falla traza consola res].
    change (efecto P c0 (tablas w)) with (tablas w).
    destruct (mapear formatear_ubicacion (filas_de P (tablas w) c0))
      as [ds|e] eqn:E; cbn [fst snd traza]; (split; [reflexivity|]).
    + right. ver_ultima. split; [reflexivity|]. split; [reflexivity|].
      cbn. apply Forall_forall. intros d Hd.
      destruct (mapear_origen _ _ _ _ E Hd) as [x [Hx Hf]].
      apply activo_formatear_ubicacion in Hf. destruct Hf as [Ha Hl].
      destruct (filas_de_origen P _ _ _ HP Hx) as [f [_ [Hc Ex]]].
      unfold c0 in Hc, Ex. cbn [where_ select_] in Hc, Ex. subst x.
      apply cumple_planta in Hc. destruct Hc as [H1 H2].
      rewrite Hl, Ha, !prop_proyectar by reflexivity. auto.
    + left. ver_ultima. reflexivity.
Qed.

(** Two requests for the locations of a plant whose plants have the same
    upper case, and whose query strings are the same, are served alike:
    the same run in the same world. *)
Theorem ubicaciones_por_planta_mayusculas (req1 req2 : Req) (w : Mundo)
    (p1 p2 : string) :
  presente (param "planta" (params req1)) = Some p1 ->
  presente (param "planta" (params req2)) = Some p2 ->
  toUpperCase P p1 = toUpperCase P p2 ->
  query req1 = query req2 ->
  obtenerUbicacionesPorPlanta P req1 w = obtenerUbicacionesPorPlanta P req2 w.
Proof.
  intros H1 H2 Hu Hq. unfold obtenerUbicacionesPorPlanta.
  cbv zeta. rewrite H1, H2, Hu, Hq. reflexivity.
Qed.

End PorPlanta.

Lemma ubicaciones_por_planta_ejemplo :
  let req := mkReq [("planta", "rancagua")] [] in
  ordenar_conserva_filas Referencia.plataforma
  /\ presente (param "planta" (params req)) = Some "rancagua"
  /\ traza (fst (ControladorMantenedores.obtenerUbicacionesPorPlanta
                   Referencia.plataforma req Referencia.mundo))
     = [mkConsulta ubicacion findMany
          [("planta", igual (VStr "RANCAGUA")); ("activo", igual (VBool true))]
          (Some ["id"; "title"; "bodega_deposito"; "planta"; "activo"])
          [("bodega_deposito", asc); ("title", asc)]].
Proof.
  intros req. split; [exact plataforma_conserva_filas|].
  split; [reflexivity|].
  exact (proj1 (ubicaciones_por_planta Referencia.plataforma req
                  Referencia.mundo "rancagua" plataforma_conserva_filas
                  eq_refl)).
Defined.

Lemma ubicaciones_por_planta_mayusculas_ejemplo :
  let req1 := mkReq [("planta", "rancagua")] [] in
  let req2 := mkReq [("planta", "RanCagua")] [] in
  presente (param "planta" (params req1)) = Some "rancagua"
  /\ presente (param "planta" (params req2)) = Some "RanCagua"
  /\ toUpperCase Referencia.plataforma "rancagua"
     = toUpperCase Referencia.plataforma "RanCagua"
  /\ query req1 = query req2
  /\ ControladorMantenedores.obtenerUbicacionesPorPlanta
       Referencia.plataforma req1 Referencia.mundo
     = ControladorMantenedores.obtenerUbicacionesPorPlanta
         Referencia.plataforma req2 Referencia.mundo.
Proof.
  intros req1 req2. repeat (split; [reflexivity|]).
  exact (ubicaciones_por_planta_mayusculas Referencia.plataforma req1 req2
           Referencia.mundo "rancagua" "RanCagua"
           eq_refl eq_refl eq_refl eq_refl).
Defined.

(** ** The two tables of constants *)

Section Estaticos.

Import ControladorMantenedores.

Lemma sin_guion_bajo (s : string) :
  sin_caracter "_" (replace_todos "_" " " s) = true.
Proof.
  induction s as [|a r IH]; simpl; [reflexivity|].
  rewrite IH, andb_true_r.
  destruct (Ascii.eqb a "_") eqn:E; [reflexivity|].
  rewrite E. reflexivity.
Qed.

(** The plants and the units of measure are served from the constants
    alone: on every request and in every world, with every query bound to
    be rejected or not, the handler issues no query, logs nothing and
    answers 200 with one element per entry of the table, [total] being the
    number of entries.  A plant has its value as [codigo] and as [nombre];
    a unit has its value as [codigo] and as [descripcion], and a [nombre]
    that holds no underscore. *)
Theorem mantenedores_estaticos (CONSTANTES : Constantes) (P : Plataforma)
    (req : Req) (w : Mundo) :
  let w1 := fst (obtenerPlantas CONSTANTES req w) in
  let w2 := fst (obtenerUnidadesMedida CONSTANTES P req w) in
  traza w1 = traza w /\ consola w1 = consola w
  /\ (exists ds,
         ultima w1
         = mkRespuesta 200
             (VObj [("exito", VBool true);
                    ("mensaje", VStr "Plantas obtenidas exitosamente");
                    ("datos", VArr ds);
                    ("total",
                     VNum (Z.of_nat (List.length (PLANTAS CONSTANTES))))])
         /\ List.length ds = List.length (PLANTAS CONSTANTES)
         /\ Forall (fun d => prop "codigo" (campos d) = prop "nombre" (campos d))
                   ds)
  /\ traza w2 = traza w /\ consola w2 = consola w
  /\ (exists ds,
         ultima w2
         = mkRespuesta 200
             (VObj [("exito", VBool true);
                    ("mensaje", VStr "Unidades de medida obtenidas exitosamente");
                    ("datos", VArr ds);
                    ("total",
                     VNum (Z.of_nat (List.length (UNIDADES_MEDIDA CONSTANTES))))])
         /\ List.length ds = List.length (UNIDADES_MEDIDA CONSTANTES)
         /\ Forall (fun d =>
                      prop "codigo" (campos d) = prop "descripcion" (campos d)
                      /\ exists s, prop "nombre" (campos d) = VStr s
                                   /\ sin_caracter "_" s = true)
                   ds).
Proof.
  intros w1 w2. unfold w1, w2, obtenerPlantas, obtenerUnidadesMedida.
  unfold intentar, responder. cbv beta zeta. cbn [fst snd traza consola].
  repeat split.
  - eexists. split; [ver_ultima; rewrite length_map; reflexivity|].
    split; [apply length_map|].
    apply Forall_map_origen. intros x _. reflexivity.
  - eexists. split; [ver_ultima; rewrite length_map; reflexivity|].
    split; [apply length_map|].
    apply Forall_map_origen. intros x _. split; [reflexivity|].
    eexists. split; [reflexivity|apply sin_guion_bajo].
Qed.

End Estaticos.

(** ** Synthetic codes tell ids apart *)

Section Inyectividad.

Import ControladorMantenedores.

Lemma append_cancela (p a b : string) : p ++ a = p ++ b -> a = b.
Proof.
  induction p as [|c p IH]; simpl; intros H; [exact H|].
  injection H as H. exact (IH H).
Qed.

(** Two ids that get the same synthetic code are the same id, whatever the
    prefix: the padding loses nothing of the id. *)
Theorem codigo_sintetico_inyectivo (prefijo : string) (n m : N) :
  codigo_sintetico prefijo (VNum (Z.of_N n))
  = codigo_sintetico prefijo (VNum (Z.of_N m)) ->
  n = m.
Proof.
  unfold codigo_sintetico. rewrite !toString_id, !padStart_decimal.
  intros H. injection H as H. apply append_cancela in H.
  apply (f_equal valor_decimal) in H. unfold valor_decimal in H.
  rewrite !valor_acc_ceros in H.
  destruct (decimal_correcto n) as [_ [Hn _]].
  destruct (decimal_correcto m) as [_ [Hm _]].
  unfold valor_decimal in Hn, Hm. congruence.
Qed.

End Inyectividad.

Lemma codigo_sintetico_inyectivo_ejemplo :
  ControladorMantenedores.codigo_sintetico "UB" (VNum (Z.of_N 7))
  = ControladorMantenedores.codigo_sintetico "UB" (VNum (Z.of_N 7))
  /\ 7%N = 7%N.
Proof.
  split; [reflexivity|].
  exact (codigo_sintetico_inyectivo "UB" 7 7 eq_refl).
Defined.
